(** * Real-time chat core: gateway, persistence service, message documents

    A shallow embedding of the chat subsystem of the travel platform
    backend: the socket gateway ([ChatSocket]), the persistence service
    ([ChatService]), the message document methods ([Message]) and the
    cache / publish-subscribe helpers ([RedisClient]).

    Conventions of the embedding.
    - A JavaScript string is a [string]: a sequence of code units, here the
      code units 0..255.  [String.length] is the [.length] of the source.
    - User ids are the strings carried by the verified token; message ids
      (ObjectIds) are numbers drawn from a counter of the collection.
    - [new Date()] and [Date.now()] are an explicit argument [now], in
      milliseconds.
    - An [async] method that runs on a store and a cache is a function from
      the state before to a [result] and the state after; a rejected promise
      or a [throw] is [Throw]. *)

From stdpp Require Import gmap strings list sorting pretty.

Open Scope string_scope.

(** ** JavaScript values and string primitives *)

Module JS.

Inductive Error : Type :=
| Err (message : string)        (* new Error(message), also store failures *)
| TypeError (message : string). (* property read on undefined or null *)

Inductive result (A : Type) : Type :=
| Ok (a : A)
| Throw (e : Error).
Arguments Ok {A} a.
Arguments Throw {A} e.

(** Parsed JSON, as [JSON.parse] hands it to a subscriber; [JUndefined] is
    what a read of an absent property gives. *)
#[warnings="-register-all"]
Inductive value : Type :=
| JUndefined
| JNull
| JBool (b : bool)
| JNum (n : Z)
| JStr (s : string)
| JArr (l : list value)
| JObj (fields : list (string * value)).

Fixpoint assoc (k : string) (fields : list (string * value)) : value :=
  match fields with
  | [] => JUndefined
  | (k', v) :: rest => if String.eqb k k' then v else assoc k rest
  end.

(** [v.k] for the field names the relay reads ([message], [chatRoom],
    [messageId], [userId], [emoji], [newContent], [editedAt], [messageIds]):
    a read on [undefined] or [null] throws, a read on a primitive or an
    array finds no such property. *)
Definition getProp (v : value) (k : string) : result value :=
  match v with
  | JUndefined =>
      Throw (TypeError ("Cannot read properties of undefined (reading '" +:+ k +:+ "')"))
  | JNull =>
      Throw (TypeError ("Cannot read properties of null (reading '" +:+ k +:+ "')"))
  | JObj fields => Ok (assoc k fields)
  | _ => Ok JUndefined
  end.

(** [const { type, ...payload } = data]: the rest object holds every own
    property except [type]. *)
Definition rest_without (k : string) (fields : list (string * value)) :
    list (string * value) :=
  List.filter (fun kv => negb (String.eqb (fst kv) k)) fields.

(** White space of [String.prototype.trim] among the code units 0..255:
    TAB, LF, VT, FF, CR, SP and NBSP. *)
Definition isWhiteSpace (c : Ascii.ascii) : bool :=
  let n := Ascii.nat_of_ascii c in
  Nat.eqb n 9 || Nat.eqb n 10 || Nat.eqb n 11 || Nat.eqb n 12
  || Nat.eqb n 13 || Nat.eqb n 32 || Nat.eqb n 160.

Fixpoint trimStart (s : string) : string :=
  match s with
  | EmptyString => EmptyString
  | String c s' => if isWhiteSpace c then trimStart s' else s
  end.

Definition trimEnd (s : string) : string :=
  String.rev (trimStart (String.rev s)).

Definition trim (s : string) : string := trimEnd (trimStart s).

(** [s.startsWith(p)] *)
Definition startsWith (s p : string) : bool := String.prefix p s.

Fixpoint dropChars (n : nat) (s : string) : string :=
  match n, s with
  | O, _ => s
  | S n', EmptyString => EmptyString
  | S n', String _ s' => dropChars n' s'
  end.

(** [s.replace(pat, repl)] with a string pattern: the first occurrence
    only, wherever it is. *)
Fixpoint replace (pat repl s : string) : string :=
  if String.prefix pat s then repl +:+ dropChars (String.length pat) s
  else match s with
       | EmptyString => EmptyString
       | String c s' => String c (replace pat repl s')
       end.

(** [s.split(sep)] for a one-character separator. *)
Fixpoint split (sep : Ascii.ascii) (s : string) : list string :=
  match s with
  | EmptyString => [EmptyString]
  | String c s' =>
      if Ascii.eqb c sep then EmptyString :: split sep s'
      else match split sep s' with
           | [] => [String c EmptyString]
           | w :: ws => String c w :: ws
           end
  end.

(** Truthiness of an optional string field: [undefined] and [''] are
    falsy. *)
Definition truthy (o : option string) : bool :=
  match o with
  | None => false
  | Some s => negb (String.eqb s "")
  end.

End JS.
Export JS.

(** ** The message document (messageModel) *)

Module Message.

Record Attachment : Type := {
  att_type : string;
  att_url : string;
  att_filename : string;
  att_size : Z
}.

(** The location sub-document.  [parseFloat] is not interpreted: the
    coordinates are kept as the pieces of the room id it is applied to
    ([None] for an absent piece). *)
Record Location : Type := {
  loc_name : option string;
  latitude : option string;
  longitude : option string
}.

Record ReadReceipt : Type := {
  read_user : string;
  readAt : Z
}.

Record Reaction : Type := {
  reaction_user : string;
  emoji : string;
  reaction_createdAt : Z
}.

Record t : Type := {
  _id : N;
  sender : string;
  content : string;
  messageType : string;
  chatRoom : string;
  chatType : string;
  journeyId : option string;
  location : option Location;
  parentMessage : option N;
  attachments : list Attachment;
  status : string;
  readBy : list ReadReceipt;
  reactions : list Reaction;
  editedAt : option Z;
  originalContent : option string;
  isDeleted : bool;
  deletedAt : option Z;
  createdAt : Z;
  updatedAt : Z
}.

Definition set_content (c : string) (m : t) : t :=
  {| _id := _id m; sender := sender m; content := c;
     messageType := messageType m; chatRoom := chatRoom m;
     chatType := chatType m; journeyId := journeyId m;
     location := location m; parentMessage := parentMessage m;
     attachments := attachments m; status := status m; readBy := readBy m;
     reactions := reactions m; editedAt := editedAt m;
     originalContent := originalContent m; isDeleted := isDeleted m;
     deletedAt := deletedAt m; createdAt := createdAt m;
     updatedAt := updatedAt m |}.

Definition set_originalContent (o : option string) (m : t) : t :=
  {| _id := _id m; sender := sender m; content := content m;
     messageType := messageType m; chatRoom := chatRoom m;
     chatType := chatType m; journeyId := journeyId m;
     location := location m; parentMessage := parentMessage m;
     attachments := attachments m; status := status m; readBy := readBy m;
     reactions := reactions m; editedAt := editedAt m;
     originalContent := o; isDeleted := isDeleted m;
     deletedAt := deletedAt m; createdAt := createdAt m;
     updatedAt := updatedAt m |}.

Definition set_editedAt (d : option Z) (m : t) : t :=
  {| _id := _id m; sender := sender m; content := content m;
     messageType := messageType m; chatRoom := chatRoom m;
     chatType := chatType m; journeyId := journeyId m;
     location := location m; parentMessage := parentMessage m;
     attachments := attachments m; status := status m; readBy := readBy m;
     reactions := reactions m; editedAt := d;
     originalContent := originalContent m; isDeleted := isDeleted m;
     deletedAt := deletedAt m; createdAt := createdAt m;
     updatedAt := updatedAt m |}.

Definition set_deleted (b : bool) (d : option Z) (m : t) : t :=
  {| _id := _id m; sender := sender m; content := content m;
     messageType := messageType m; chatRoom := chatRoom m;
     chatType := chatType m; journeyId := journeyId m;
     location := location m; parentMessage := parentMessage m;
     attachments := attachments m; status := status m; readBy := readBy m;
     reactions := reactions m; editedAt := editedAt m;
     originalContent := originalContent m; isDeleted := b;
     deletedAt := d; createdAt := createdAt m;
     updatedAt := updatedAt m |}.

Definition set_readBy (r : list ReadReceipt) (m : t) : t :=
  {| _id := _id m; sender := sender m; content := content m;
     messageType := messageType m; chatRoom := chatRoom m;
     chatType := chatType m; journeyId := journeyId m;
     location := location m; parentMessage := parentMessage m;
     attachments := attachments m; status := status m; readBy := r;
     reactions := reactions m; editedAt := editedAt m;
     originalContent := originalContent m; isDeleted := isDeleted m;
     deletedAt := deletedAt m; createdAt := createdAt m;
     updatedAt := updatedAt m |}.

Definition set_reactions (r : list Reaction) (m : t) : t :=
  {| _id := _id m; sender := sender m; content := content m;
     messageType := messageType m; chatRoom := chatRoom m;
     chatType := chatType m; journeyId := journeyId m;
     location := location m; parentMessage := parentMessage m;
     attachments := attachments m; status := status m; readBy := readBy m;
     reactions := r; editedAt := editedAt m;
     originalContent := originalContent m; isDeleted := isDeleted m;
     deletedAt := deletedAt m; createdAt := createdAt m;
     updatedAt := updatedAt m |}.

Definition set_stamps (id : N) (created updated : Z) (m : t) : t :=
  {| _id := id; sender := sender m; content := content m;
     messageType := messageType m; chatRoom := chatRoom m;
     chatType := chatType m; journeyId := journeyId m;
     location := location m; parentMessage := parentMessage m;
     attachments := attachments m; status := status m; readBy := readBy m;
     reactions := reactions m; editedAt := editedAt m;
     originalContent := originalContent m; isDeleted := isDeleted m;
     deletedAt := deletedAt m; createdAt := created;
     updatedAt := updated |}.

(** Schema validation run by [save]: [content] is required (the empty
    string does not satisfy [required]) and holds at most 1000 characters;
    [messageType], [chatType] and [status] are in their [enum].  The casts
    to ObjectId and the [enum] of the attachments are not modelled. *)
Definition validate (m : t) : bool :=
  negb (String.eqb (content m) "")
  && Nat.leb (String.length (content m)) 1000
  && bool_decide (messageType m ∈ ["text"; "image"; "file"; "location"; "system"])
  && bool_decide (chatType m ∈ ["group_planning"; "location_chat"; "qa_chat"; "direct"])
  && bool_decide (status m ∈ ["sent"; "delivered"; "read"]).

(** [this.reactions.find(r => r.user.toString() === userId.toString())]
    followed by the in-place update of the element found: the first entry
    of the user takes the new emoji. *)
Fixpoint setFirstEmoji (userId e : string) (rs : list Reaction) : list Reaction :=
  match rs with
  | [] => []
  | r :: rest =>
      if String.eqb (reaction_user r) userId
      then {| reaction_user := reaction_user r; emoji := e;
              reaction_createdAt := reaction_createdAt r |} :: rest
      else r :: setFirstEmoji userId e rest
  end.

Definition existingReaction (userId : string) (rs : list Reaction) : option Reaction :=
  List.find (fun r => String.eqb (reaction_user r) userId) rs.

(** [messageSchema.methods.addReaction], before its [this.save()]. *)
Definition addReaction (userId e : string) (now : Z) (m : t) : t :=
  match existingReaction userId (reactions m) with
  | Some _ => set_reactions (setFirstEmoji userId e (reactions m)) m
  | None =>
      set_reactions
        (reactions m ++ [{| reaction_user := userId; emoji := e;
                            reaction_createdAt := now |}]) m
  end.

(** [messageSchema.methods.removeReaction], before its [this.save()]. *)
Definition removeReaction (userId : string) (m : t) : t :=
  set_reactions
    (List.filter (fun r => negb (String.eqb (reaction_user r) userId)) (reactions m)) m.

(** [messageSchema.methods.markAsRead], before its [this.save()]. *)
Definition markAsRead (userId : string) (now : Z) (m : t) : t :=
  match List.find (fun r => String.eqb (read_user r) userId) (readBy m) with
  | Some _ => m
  | None => set_readBy (readBy m ++ [{| read_user := userId; readAt := now |}]) m
  end.

(** The number of entries a user has in a list of reactions or receipts. *)
Definition reactionsOf (userId : string) (m : t) : list Reaction :=
  List.filter (fun r => String.eqb (reaction_user r) userId) (reactions m).

Definition receiptsOf (userId : string) (m : t) : list ReadReceipt :=
  List.filter (fun r => String.eqb (read_user r) userId) (readBy m).

End Message.

(** ** The cache and publish/subscribe helpers (redisClient) *)

Module RedisClient.

Section Client.
Context {V : Type}.

(** A key set by [setEx] with the instant at which it expires. *)
Record Entry : Type := {
  entry_value : V;
  expiresAt : Z
}.

Record Store : Type := {
  keys : gmap string Entry;
  published : list (string * value)
}.

(** The module-level [client]: [None] when no client was created. *)
Definition Client : Type := option Store.

(** [setCache(key, value, expireInSeconds)]; the boolean it returns is
    ignored by every caller in the chat service. *)
Definition setCache (key : string) (v : V) (expireInSeconds now : Z)
    (client : Client) : Client :=
  match client with
  | None => None
  | Some st =>
      Some {| keys := <[key := {| entry_value := v;
                                  expiresAt := now + 1000 * expireInSeconds |}]>
                        (keys st);
              published := published st |}
  end.

(** [getCache(key)]: [null] without a client, for an absent key and for an
    expired one. *)
Definition getCache (key : string) (now : Z) (client : Client) : option V :=
  match client with
  | None => None
  | Some st =>
      match keys st !! key with
      | Some e => if bool_decide (now < expiresAt e)%Z
                  then Some (entry_value e) else None
      | None => None
      end
  end.

(** [deleteCache(key)] is [client.del(key)]: the key with exactly that
    name is removed. *)
Definition deleteCache (key : string) (client : Client) : Client :=
  match client with
  | None => None
  | Some st =>
      Some {| keys := delete key (keys st); published := published st |}
  end.

(** [publishMessage(channel, message)] *)
Definition publishMessage (channel : string) (message : value)
    (client : Client) : Client :=
  match client with
  | None => None
  | Some st =>
      Some {| keys := keys st;
              published := published st ++ [(channel, message)] |}
  end.
End Client.

Arguments Entry : clear implicits.
Arguments Store : clear implicits.
Arguments Client : clear implicits.

End RedisClient.

(** ** The message collection (the model's static methods) *)

Module Collection.
Import Message.

(** The collection with the counter its ObjectIds are drawn from, and
    whether the store can be reached: every operation rejects when it
    cannot. *)
Record t : Type := {
  docs : list Message.t;
  nextId : N;
  connected : bool
}.

Definition storageFailure : Error := Err "message store unreachable".
Definition validationFailed : Error := Err "Message validation failed".

(** The fields a caller hands to [new Message(...)]. *)
Record MessageData : Type := {
  data_sender : string;
  data_content : string;
  data_messageType : string;
  data_chatRoom : string;
  data_chatType : string;
  data_attachments : list Attachment;
  data_parentMessage : option N;
  data_journeyId : option string;
  data_location : option Location
}.

(** [new Message(messageData)] with the defaults of the schema. *)
Definition newMessage (d : MessageData) (id : N) : Message.t :=
  {| _id := id; sender := data_sender d; content := data_content d;
     messageType := data_messageType d; chatRoom := data_chatRoom d;
     chatType := data_chatType d; journeyId := data_journeyId d;
     location := data_location d; parentMessage := data_parentMessage d;
     attachments := data_attachments d; status := "sent"; readBy := [];
     reactions := []; editedAt := None; originalContent := None;
     isDeleted := false; deletedAt := None; createdAt := 0; updatedAt := 0 |}.

(** [message.save()] of a new document. *)
Definition create (d : MessageData) (now : Z) (c : t) : result (Message.t * t) :=
  let m := set_stamps (nextId c) now now (newMessage d (nextId c)) in
  if negb (validate m) then Throw validationFailed
  else if negb (connected c) then Throw storageFailure
  else Ok (m, {| docs := docs c ++ [m]; nextId := N.succ (nextId c);
                 connected := connected c |}).

Definition findById (id : N) (c : t) : result (option Message.t) :=
  if connected c
  then Ok (List.find (fun m => N.eqb (_id m) id) (docs c))
  else Throw storageFailure.

Definition replaceDoc (m' : Message.t) (ds : list Message.t) : list Message.t :=
  map (fun m => if N.eqb (_id m) (_id m') then m' else m) ds.

(** [timestamps: true] on a write to an existing document: [updatedAt]
    takes the time of the write. *)
Definition touch (now : Z) (m : Message.t) : Message.t :=
  set_stamps (_id m) (createdAt m) now m.

(** [message.save()] of a document loaded from the collection. *)
Definition save (m : Message.t) (now : Z) (c : t) : result (Message.t * t) :=
  let m' := touch now m in
  if negb (validate m') then Throw validationFailed
  else if negb (connected c) then Throw storageFailure
  else Ok (m', {| docs := replaceDoc m' (docs c); nextId := nextId c;
                  connected := connected c |}).

(** The filter [{ chatRoom, isDeleted: false }]. *)
Definition inHistory (room : string) (m : Message.t) : bool :=
  String.eqb (chatRoom m) room && negb (isDeleted m).

(** [sort({ createdAt: -1 })]: newest first. *)
Definition newerFirst (a b : Message.t) : Prop := (createdAt b <= createdAt a)%Z.

#[export] Instance newerFirst_dec a b : Decision (newerFirst a b).
Proof. unfold newerFirst. apply _. Defined.

(** [Message.find({chatRoom, isDeleted: false}).sort({createdAt: -1})
    .skip(skip).limit(limit)], for [skip >= 0] and [limit >= 1]. *)
Definition findHistory (room : string) (skip limit : Z) (c : t) :
    result (list Message.t) :=
  if connected c
  then Ok (take (Z.to_nat limit)
             (drop (Z.to_nat skip)
                (merge_sort newerFirst (List.filter (inHistory room) (docs c)))))
  else Throw storageFailure.

(** [Message.countDocuments({chatRoom, isDeleted: false})] *)
Definition countDocuments (room : string) (c : t) : result Z :=
  if connected c
  then Ok (Z.of_nat (length (List.filter (inHistory room) (docs c))))
  else Throw storageFailure.

Definition readByUser (userId : string) (m : Message.t) : bool :=
  existsb (fun r => String.eqb (read_user r) userId) (readBy m).

(** The query of [markMessagesAsRead]:
    [{ chatRoom, 'readBy.user': { $ne: userId } }], with
    [_id: { $in: messageIds }] when ids are given. *)
Definition unreadQuery (room userId : string) (messageIds : list N)
    (m : Message.t) : bool :=
  String.eqb (chatRoom m) room
  && negb (readByUser userId m)
  && match messageIds with
     | [] => true
     | _ => existsb (N.eqb (_id m)) messageIds
     end.

Definition pushReadBy (userId : string) (now : Z) (m : Message.t) : Message.t :=
  touch now
    (set_readBy (readBy m ++ [{| read_user := userId; readAt := now |}]) m).

(** What [updateMany] does to one document: the push when the query
    selects it. *)
Definition marked (room userId : string) (messageIds : list N) (now : Z)
    (m : Message.t) : Message.t :=
  if unreadQuery room userId messageIds m then pushReadBy userId now m else m.

(** [Message.updateMany(query, { $push: { readBy: { user: userId } } })],
    returning [modifiedCount]. *)
Definition updateManyRead (room userId : string) (messageIds : list N)
    (now : Z) (c : t) : result (Z * t) :=
  if connected c
  then Ok (Z.of_nat (length (List.filter (unreadQuery room userId messageIds) (docs c))),
           {| docs := map (marked room userId messageIds now) (docs c);
              nextId := nextId c; connected := connected c |})
  else Throw storageFailure.

End Collection.

(** ** The persistence service (chatService) *)

Module ChatService.
Import Message Collection RedisClient.

Record Pagination : Type := {
  currentPage : Z;
  totalPages : Z;
  totalMessages : Z;
  hasNext : bool;
  hasPrev : bool
}.

Record History : Type := {
  messages : list Message.t;
  pagination : Pagination
}.

(** What the service runs on: the collection and the cache client. *)
Record World : Type := {
  db : Collection.t;
  client : RedisClient.Client History
}.

(** The JSON form of a document, as far as a subscriber reads it. *)
Definition toJSON (m : Message.t) : value :=
  JObj [("_id", JNum (Z.of_N (_id m))); ("sender", JStr (sender m));
        ("content", JStr (content m)); ("messageType", JStr (messageType m));
        ("chatRoom", JStr (chatRoom m)); ("chatType", JStr (chatType m));
        ("status", JStr (status m)); ("isDeleted", JBool (isDeleted m));
        ("createdAt", JNum (createdAt m)); ("updatedAt", JNum (updatedAt m))].

Definition idJSON (id : N) : value := JNum (Z.of_N id).

(** [saveMessage(messageData)].  [populate('sender', ...)] only decorates
    the returned copy with profile fields of the user collection and is
    left out. *)
Definition saveMessage (d : MessageData) (now : Z) (w : World) :
    result Message.t * World :=
  match create d now (db w) with
  | Throw e => (Throw e, w)
  | Ok (message, db') =>
      let client' :=
        publishMessage ("chat:" +:+ data_chatRoom d)
          (JObj [("type", JStr "new_message"); ("message", toJSON message)])
          (client w) in
      (Ok message, {| db := db'; client := client' |})
  end.

(** [`chat_history:${chatRoom}:${page}:${limit}`] *)
Definition cacheKey (room : string) (page limit : Z) : string :=
  "chat_history:" +:+ room +:+ ":" +:+ pretty page +:+ ":" +:+ pretty limit.

(** [Math.ceil(total / limit)] for [limit <> 0]. *)
Definition ceilDiv (total limit : Z) : Z := (- ((- total) / limit))%Z.

(** [getChatHistory(chatRoom, page, limit)], for [page >= 1] and
    [limit >= 1].  The two [populate] calls only decorate the documents
    read and are left out; the value cached is the value returned. *)
Definition getChatHistory (room : string) (page limit now : Z) (w : World) :
    result History * World :=
  match getCache (cacheKey room page limit) now (client w) with
  | Some cachedHistory => (Ok cachedHistory, w)
  | None =>
      let skip := ((page - 1) * limit)%Z in
      match findHistory room skip limit (db w) with
      | Throw e => (Throw e, w)
      | Ok found =>
          match countDocuments room (db w) with
          | Throw e => (Throw e, w)
          | Ok total =>
              let result :=
                {| messages := reverse found;
                   pagination :=
                     {| currentPage := page;
                        totalPages := ceilDiv total limit;
                        totalMessages := total;
                        hasNext := bool_decide (page < ceilDiv total limit)%Z;
                        hasPrev := bool_decide (1 < page)%Z |} |} in
              (Ok result,
               {| db := db w;
                  client := setCache (cacheKey room page limit) result 300 now
                              (client w) |})
          end
      end
  end.

(** [`chat_history:${chatRoom}*`], the name every mutation hands to
    [deleteCache]. *)
Definition historyPattern (room : string) : string :=
  "chat_history:" +:+ room +:+ "*".

Record MarkResult : Type := { messagesMarked : Z }.

(** [markMessagesAsRead(chatRoom, userId, messageIds)] *)
Definition markMessagesAsRead (room userId : string) (messageIds : list N)
    (now : Z) (w : World) : result MarkResult * World :=
  match updateManyRead room userId messageIds now (db w) with
  | Throw e => (Throw e, w)
  | Ok (modifiedCount, db') =>
      let c1 := deleteCache (historyPattern room) (client w) in
      let c2 :=
        publishMessage ("chat:" +:+ room)
          (JObj [("type", JStr "messages_read"); ("userId", JStr userId);
                 ("messageIds",
                  match messageIds with
                  | [] => JStr "all"
                  | _ => JArr (map idJSON messageIds)
                  end)]) c1 in
      (Ok {| messagesMarked := modifiedCount |}, {| db := db'; client := c2 |})
  end.

(** The acknowledgement [{ success: true, message }]. *)
Record Ack : Type := { ack_message : string }.

(** What every mutation of one message does after its [save]: clear the
    cache and publish the update. *)
Definition clearAndPublish (room : string) (payload : value)
    (c : RedisClient.Client History) : RedisClient.Client History :=
  publishMessage ("chat:" +:+ room) payload (deleteCache (historyPattern room) c).

(** [addReaction(messageId, userId, emoji)] *)
Definition addReaction (messageId : N) (userId e : string) (now : Z)
    (w : World) : result Ack * World :=
  match findById messageId (db w) with
  | Throw err => (Throw err, w)
  | Ok None => (Throw (Err "Message not found"), w)
  | Ok (Some message) =>
      match save (Message.addReaction userId e now message) now (db w) with
      | Throw err => (Throw err, w)
      | Ok (message', db') =>
          (Ok {| ack_message := "Reaction added successfully" |},
           {| db := db';
              client :=
                clearAndPublish (chatRoom message')
                  (JObj [("type", JStr "reaction_added");
                         ("messageId", idJSON messageId);
                         ("userId", JStr userId); ("emoji", JStr e)])
                  (client w) |})
      end
  end.

(** [removeReaction(messageId, userId)] *)
Definition removeReaction (messageId : N) (userId : string) (now : Z)
    (w : World) : result Ack * World :=
  match findById messageId (db w) with
  | Throw err => (Throw err, w)
  | Ok None => (Throw (Err "Message not found"), w)
  | Ok (Some message) =>
      match save (Message.removeReaction userId message) now (db w) with
      | Throw err => (Throw err, w)
      | Ok (message', db') =>
          (Ok {| ack_message := "Reaction removed successfully" |},
           {| db := db';
              client :=
                clearAndPublish (chatRoom message')
                  (JObj [("type", JStr "reaction_removed");
                         ("messageId", idJSON messageId);
                         ("userId", JStr userId)])
                  (client w) |})
      end
  end.

(** The assignments of [editMessage] between the ownership check and
    [save]: the first edit snapshots the content. *)
Definition applyEdit (newContent : string) (now : Z) (message : Message.t) :
    Message.t :=
  let snap :=
    if truthy (originalContent message) then message
    else set_originalContent (Some (content message)) message in
  set_editedAt (Some now) (set_content newContent snap).

(** [editMessage(messageId, userId, newContent)] *)
Definition editMessage (messageId : N) (userId newContent : string) (now : Z)
    (w : World) : result Ack * World :=
  match findById messageId (db w) with
  | Throw err => (Throw err, w)
  | Ok None => (Throw (Err "Message not found"), w)
  | Ok (Some message) =>
      if negb (String.eqb (sender message) userId)
      then (Throw (Err "Can only edit your own messages"), w)
      else
        match save (applyEdit newContent now message) now (db w) with
        | Throw err => (Throw err, w)
        | Ok (message', db') =>
            (Ok {| ack_message := "Message edited successfully" |},
             {| db := db';
                client :=
                  clearAndPublish (chatRoom message')
                    (JObj [("type", JStr "message_edited");
                           ("messageId", idJSON messageId);
                           ("newContent", JStr newContent);
                           ("editedAt", JNum now)])
                    (client w) |})
        end
  end.

Definition tombstone : string := "This message has been deleted".

(** [deleteMessage(messageId, userId)] *)
Definition deleteMessage (messageId : N) (userId : string) (now : Z)
    (w : World) : result Ack * World :=
  match findById messageId (db w) with
  | Throw err => (Throw err, w)
  | Ok None => (Throw (Err "Message not found"), w)
  | Ok (Some message) =>
      if negb (String.eqb (sender message) userId)
      then (Throw (Err "Can only delete your own messages"), w)
      else
        match save (set_content tombstone (set_deleted true (Some now) message))
                now (db w) with
        | Throw err => (Throw err, w)
        | Ok (message', db') =>
            (Ok {| ack_message := "Message deleted successfully" |},
             {| db := db';
                client :=
                  clearAndPublish (chatRoom message')
                    (JObj [("type", JStr "message_deleted");
                           ("messageId", idJSON messageId)])
                    (client w) |})
        end
  end.

End ChatService.

(** ** The connection gateway and the relay (chatSocket) *)

Module ChatSocket.
Import Message Collection ChatService.

(** An authenticated socket: [socket.id] and [socket.userId]. *)
Record Socket : Type := {
  socket_id : string;
  userId : string
}.

(** The process-local state: the presence map of the class, and the live
    sockets and room membership kept by the transport. *)
Record Gateway : Type := {
  connectedUsers : gmap string string;
  sockets : gmap string string;
  rooms : gmap string (gset string)
}.

Record State : Type := {
  gateway : Gateway;
  world : World
}.

Inductive Target : Type :=
| ToSocket (id : string)                 (* socket.emit *)
| ToRoom (room : string)                 (* io.to(room).emit *)
| ToRoomExcept (room : string) (id : string) (* socket.to(room).emit *)
| ToValue (room : value).                (* io.to(v).emit, v not a string *)

Inductive ServerEvent : Type :=
| error (message : string)
| chat_history (history : History)
| user_joined (user : string) (timestamp : Z)
| user_left (user : string) (timestamp : Z)
| new_message (message : Message.t)
| user_typing (user : string) (typing : bool)
| reaction_updated (messageId user emoji : value) (action : string)
| message_updated (messageId newContent editedAt : value)
| message_deleted (messageId : value)
| messages_read (user messageIds : value).

Record Emission : Type := {
  target : Target;
  event : ServerEvent
}.

Definition emit (t : Target) (e : ServerEvent) : Emission :=
  {| target := t; event := e |}.

Definition members (g : Gateway) (room : string) : gset string :=
  default ∅ (rooms g !! room).

(** The sockets an emission reaches. *)
Definition recipients (g : Gateway) (t : Target) : gset string :=
  match t with
  | ToSocket id => {[ id ]}
  | ToRoom room => members g room
  | ToRoomExcept room id => members g room ∖ {[ id ]}
  | ToValue _ => ∅
  end.

(** [socket.join(room)] and [socket.leave(room)] *)
Definition join (s : Socket) (room : string) (g : Gateway) : Gateway :=
  {| connectedUsers := connectedUsers g; sockets := sockets g;
     rooms := <[room := {[ socket_id s ]} ∪ members g room]> (rooms g) |}.

Definition leave (s : Socket) (room : string) (g : Gateway) : Gateway :=
  {| connectedUsers := connectedUsers g; sockets := sockets g;
     rooms := <[room := members g room ∖ {[ socket_id s ]}]> (rooms g) |}.

(** [validateRoomAccess(userId, roomId, roomType)]: each of the four
    known room types returns [true] as the source has it, before any look
    at the user or the room id; an unknown type is refused. *)
Definition validateRoomAccess (user roomId roomType : string) : bool :=
  if String.eqb roomType "group_planning" then true
  else if String.eqb roomType "location_chat" then true
  else if String.eqb roomType "qa_chat" then true
  else if String.eqb roomType "direct" then true
  else false.

Definition determineChatType (roomId : string) : string :=
  if startsWith roomId "journey_" then "group_planning"
  else if startsWith roomId "location_" then "location_chat"
  else if startsWith roomId "qa_" then "qa_chat"
  else "direct".

Definition extractJourneyId (roomId : string) : string :=
  replace "journey_" "" roomId.

(** The separator ['_'] of [split('_')]. *)
Definition underscore : Ascii.ascii := Ascii.ascii_of_nat 95.

Definition extractLocationData (roomId : string) : Location :=
  let coords := split underscore (replace "location_" "" roomId) in
  {| loc_name := None; latitude := coords !! 0%nat; longitude := coords !! 1%nat |}.

(** [handleConnection(socket)], up to the registration of the handlers;
    the transport has the socket among its live ones. *)
Definition handleConnection (s : Socket) (g : Gateway) : Gateway :=
  join s ("user_" +:+ userId s)
    {| connectedUsers := <[userId s := socket_id s]> (connectedUsers g);
       sockets := <[socket_id s := userId s]> (sockets g);
       rooms := rooms g |}.

Record JoinRoom : Type := { join_roomId : string; join_roomType : string }.

(** The [join_room] handler. *)
Definition join_room (s : Socket) (data : JoinRoom) (now : Z) (st : State) :
    State * list Emission :=
  let canJoin := validateRoomAccess (userId s) (join_roomId data) (join_roomType data) in
  if negb canJoin
  then (st, [emit (ToSocket (socket_id s)) (error "Access denied to this chat room")])
  else
    let g := join s (join_roomId data) (gateway st) in
    match getChatHistory (join_roomId data) 1 20 now (world st) with
    | (Throw _, w) =>
        ({| gateway := g; world := w |},
         [emit (ToSocket (socket_id s)) (error "Failed to join chat room")])
    | (Ok history, w) =>
        ({| gateway := g; world := w |},
         [emit (ToSocket (socket_id s)) (chat_history history);
          emit (ToRoomExcept (join_roomId data) (socket_id s))
            (user_joined (userId s) now)])
    end.

(** The [leave_room] handler. *)
Definition leave_room (s : Socket) (roomId : string) (now : Z) (st : State) :
    State * list Emission :=
  ({| gateway := leave s roomId (gateway st); world := world st |},
   [emit (ToRoomExcept roomId (socket_id s)) (user_left (userId s) now)]).

(** The payload of [send_message]; an absent [messageType] or
    [attachments] takes the default of the destructuring. *)
Record SendMessage : Type := {
  send_roomId : string;
  send_content : string;
  send_messageType : option string;
  send_attachments : option (list Attachment);
  send_parentMessageId : option N
}.

(** The message data [send_message] prepares for a content that passed the
    checks. *)
Definition messageData (s : Socket) (data : SendMessage) : MessageData :=
  let chatType := determineChatType (send_roomId data) in
  {| data_sender := userId s;
     data_content := trim (send_content data);
     data_messageType := default "text" (send_messageType data);
     data_chatRoom := send_roomId data;
     data_chatType := chatType;
     data_attachments := default [] (send_attachments data);
     data_parentMessage := send_parentMessageId data;
     data_journeyId :=
       if String.eqb chatType "group_planning"
       then Some (extractJourneyId (send_roomId data)) else None;
     data_location :=
       if String.eqb chatType "location_chat"
       then Some (extractLocationData (send_roomId data)) else None |}.

(** The [send_message] handler. *)
Definition send_message (s : Socket) (data : SendMessage) (now : Z) (st : State) :
    State * list Emission :=
  let content := send_content data in
  if String.eqb content "" || Nat.eqb (String.length (trim content)) 0
  then (st, [emit (ToSocket (socket_id s)) (error "Message content is required")])
  else if Nat.ltb 1000 (String.length content)
  then (st, [emit (ToSocket (socket_id s))
               (error "Message too long (max 1000 characters)")])
  else
    match saveMessage (messageData s data) now (world st) with
    | (Throw _, w) =>
        ({| gateway := gateway st; world := w |},
         [emit (ToSocket (socket_id s)) (error "Failed to send message")])
    | (Ok savedMessage, w) =>
        ({| gateway := gateway st; world := w |},
         [emit (ToRoom (send_roomId data)) (new_message savedMessage)])
    end.

(** The [typing_start] and [typing_stop] handlers. *)
Definition typing (s : Socket) (roomId : string) (on : bool) (st : State) :
    State * list Emission :=
  (st, [emit (ToRoomExcept roomId (socket_id s)) (user_typing (userId s) on)]).

(** The shape shared by the handlers that delegate to the service: run
    the call, and in the [catch] emit what the handler emits there. *)
Definition delegate {A : Type} (s : Socket) (call : World -> result A * World)
    (onError : list Emission) (st : State) : State * list Emission :=
  match call (world st) with
  | (Throw _, w) => ({| gateway := gateway st; world := w |}, onError)
  | (Ok _, w) => ({| gateway := gateway st; world := w |}, [])
  end.

(** The [add_reaction] handler. *)
Definition add_reaction (s : Socket) (messageId : N) (e : string) (now : Z)
    (st : State) : State * list Emission :=
  delegate s (ChatService.addReaction messageId (userId s) e now)
    [emit (ToSocket (socket_id s)) (error "Failed to add reaction")] st.

(** The [remove_reaction] handler. *)
Definition remove_reaction (s : Socket) (messageId : N) (now : Z) (st : State) :
    State * list Emission :=
  delegate s (ChatService.removeReaction messageId (userId s) now)
    [emit (ToSocket (socket_id s)) (error "Failed to remove reaction")] st.

(** The [edit_message] handler. *)
Definition edit_message (s : Socket) (messageId : N) (newContent : string)
    (now : Z) (st : State) : State * list Emission :=
  delegate s (ChatService.editMessage messageId (userId s) newContent now)
    [emit (ToSocket (socket_id s)) (error "Failed to edit message")] st.

(** The [delete_message] handler. *)
Definition delete_message (s : Socket) (messageId : N) (now : Z) (st : State) :
    State * list Emission :=
  delegate s (ChatService.deleteMessage messageId (userId s) now)
    [emit (ToSocket (socket_id s)) (error "Failed to delete message")] st.

(** The [mark_messages_read] handler: its [catch] logs and emits
    nothing.  An absent [messageIds] is the empty list. *)
Definition mark_messages_read (s : Socket) (roomId : string)
    (messageIds : option (list N)) (now : Z) (st : State) :
    State * list Emission :=
  delegate s
    (ChatService.markMessagesAsRead roomId (userId s) (default [] messageIds) now)
    [] st.

(** The [disconnect] handler, after the transport dropped the socket from
    its live sockets and from every room. *)
Definition disconnect (s : Socket) (g : Gateway) : Gateway :=
  {| connectedUsers := delete (userId s) (connectedUsers g);
     sockets := delete (socket_id s) (sockets g);
     rooms := (fun ids => ids ∖ {[ socket_id s ]}) <$> rooms g |}.

(** [io.to(v)] for a value read from a published event. *)
Definition io_to (v : value) : Target :=
  match v with
  | JStr room => ToRoom room
  | _ => ToValue v
  end.

(** [payload.message.chatRoom] *)
Definition messageRoom (payload : value) : result value :=
  match getProp payload "message" with
  | Throw e => Throw e
  | Ok message => getProp message "chatRoom"
  end.

Definition field (payload : value) (k : string) : value :=
  match payload with
  | JObj fields => assoc k fields
  | _ => JUndefined
  end.

(** [handleRedisMessage(data)] *)
Definition handleRedisMessage (data : value) : result (list Emission) :=
  match data with
  | JUndefined => Throw (TypeError "Cannot destructure 'data' as it is undefined.")
  | JNull => Throw (TypeError "Cannot destructure 'data' as it is null.")
  | JObj fields =>
      let payload := JObj (rest_without "type" fields) in
      let to_room (ev : ServerEvent) : result (list Emission) :=
        match messageRoom payload with
        | Throw e => Throw e
        | Ok room => Ok [emit (io_to room) ev]
        end in
      match assoc "type" fields with
      | JStr type =>
          if String.eqb type "new_message" then Ok []
          else if String.eqb type "reaction_added" then
            to_room (reaction_updated (field payload "messageId")
                       (field payload "userId") (field payload "emoji") "added")
          else if String.eqb type "reaction_removed" then
            to_room (reaction_updated (field payload "messageId")
                       (field payload "userId") JUndefined "removed")
          else if String.eqb type "message_edited" then
            to_room (message_updated (field payload "messageId")
                       (field payload "newContent") (field payload "editedAt"))
          else if String.eqb type "message_deleted" then
            to_room (message_deleted (field payload "messageId"))
          else if String.eqb type "messages_read" then
            to_room (messages_read (field payload "userId")
                       (field payload "messageIds"))
          else Ok []
      | _ => Ok []
      end
  | _ => Ok []
  end.

(** The subscriber callback of [subscribeToChannel] around the relay: a
    throw is caught and logged. *)
Definition onPublished (data : value) : list Emission :=
  match handleRedisMessage data with
  | Ok es => es
  | Throw _ => []
  end.

End ChatSocket.

(** ** Properties and scenarios the theorems are stated with *)

Module Props.
Import Message Collection RedisClient ChatService ChatSocket.

(** At most one reaction entry per user on a message. *)
Definition oneReactionPerUser (m : Message.t) : Prop :=
  NoDup (map reaction_user (reactions m)).

(** At most one read receipt per user on a message. *)
Definition oneReceiptPerUser (m : Message.t) : Prop :=
  NoDup (map read_user (readBy m)).

(** A call of one of the two reaction methods of a document. *)
Inductive ReactionOp : Type :=
| AddReaction (user e : string) (now : Z)
| RemoveReaction (user : string).

Definition runReactionOp (m : Message.t) (op : ReactionOp) : Message.t :=
  match op with
  | AddReaction u e now => Message.addReaction u e now m
  | RemoveReaction u => Message.removeReaction u m
  end.

Definition runReactionOps (ops : list ReactionOp) (m : Message.t) : Message.t :=
  fold_left runReactionOp ops m.

(** The five mutations of the service. *)
Inductive Mutation : Type :=
| Edit (messageId : N) (user newContent : string)
| Delete (messageId : N) (user : string)
| React (messageId : N) (user e : string)
| Unreact (messageId : N) (user : string)
| MarkRead (room user : string) (messageIds : list N).

Definition forget {A : Type} (r : result A * World) : result unit * World :=
  match r with
  | (Ok _, w) => (Ok tt, w)
  | (Throw e, w) => (Throw e, w)
  end.

Definition runMutation (mu : Mutation) (now : Z) (w : World) : result unit * World :=
  match mu with
  | Edit id u c => forget (editMessage id u c now w)
  | Delete id u => forget (deleteMessage id u now w)
  | React id u e => forget (ChatService.addReaction id u e now w)
  | Unreact id u => forget (ChatService.removeReaction id u now w)
  | MarkRead room u ids => forget (markMessagesAsRead room u ids now w)
  end.

(** The room of the message a mutation acts on. *)
Definition mutationRoom (mu : Mutation) (w : World) : option string :=
  match mu with
  | Edit id _ _ | Delete id _ | React id _ _ | Unreact id _ =>
      chatRoom <$> List.find (fun m => N.eqb (_id m) id) (docs (db w))
  | MarkRead room _ _ => Some room
  end.

(** The event a mutation published last. *)
Definition lastPublished (w : World) : option value :=
  match client w with
  | Some st => snd <$> last (published st)
  | None => None
  end.

(** A content that is empty or holds white space only. *)
Fixpoint allWhiteSpace (s : string) : bool :=
  match s with
  | EmptyString => true
  | String c s' => isWhiteSpace c && allWhiteSpace s'
  end.

(** What the read of [chatRoom] on an absent [message] field throws. *)
Definition noMessageField : Error :=
  TypeError "Cannot read properties of undefined (reading 'chatRoom')".

(** Oldest first, the order of a history page. *)
Definition olderFirst (a b : Message.t) : Prop := (createdAt a <= createdAt b)%Z.

(** The separator [':'] of the cache keys, and the number of its
    occurrences in a string. *)
Definition colon : Ascii.ascii := Ascii.ascii_of_nat 58.

Fixpoint colons (s : string) : nat :=
  match s with
  | EmptyString => 0
  | String c s' => (if Ascii.eqb c colon then 1 else 0) + colons s'
  end.

(** Every page cached under the key of a room holds messages of that room
    only, none of them flagged as deleted when it was cached. *)
Definition cacheSound (c : RedisClient.Client History) : Prop :=
  forall st room page limit e,
    c = Some st -> keys st !! cacheKey room page limit = Some e ->
    Forall (fun m => chatRoom m = room /\ isDeleted m = false)
      (messages (entry_value e)).

(** The number of messages of a collection a user has a receipt on. *)
Definition readCount (user : string) (c : Collection.t) : nat :=
  length (List.filter (readByUser user) (docs c)).

End Props.

(** ** Sample data *)

Module Sample.
Import Message Collection RedisClient ChatService ChatSocket.

Definition hello : Message.t :=
  {| _id := 7; sender := "alice"; content := "hello"; messageType := "text";
     chatRoom := "qa_j1_u2"; chatType := "qa_chat"; journeyId := None;
     location := None; parentMessage := None; attachments := [];
     status := "sent"; readBy := []; reactions := []; editedAt := None;
     originalContent := None; isDeleted := false; deletedAt := None;
     createdAt := 100; updatedAt := 100 |}.

Definition store : Collection.t :=
  {| docs := [hello]; nextId := 8; connected := true |}.

Definition emptyCache : RedisClient.Client History :=
  Some {| keys := ∅; published := [] |}.

Definition world0 : World := {| db := store; client := emptyCache |}.

(** The same world with the message store out of reach. *)
Definition worldDown : World :=
  {| db := {| docs := [hello]; nextId := 8; connected := false |};
     client := emptyCache |}.

(** The world after the first page of the room was read at time 200. *)
Definition worldCached : World :=
  snd (getChatHistory "qa_j1_u2" 1 20 200 world0).

Definition alice : Socket := {| socket_id := "s1"; userId := "alice" |}.
Definition alice2 : Socket := {| socket_id := "s2"; userId := "alice" |}.
Definition mallory : Socket := {| socket_id := "s9"; userId := "u3" |}.

Definition gateway0 : Gateway :=
  {| connectedUsers := ∅; sockets := ∅; rooms := ∅ |}.

Definition state0 : State :=
  {| gateway := handleConnection alice gateway0; world := world0 |}.

Definition blank : SendMessage :=
  {| send_roomId := "qa_j1_u2"; send_content := "   ";
     send_messageType := None; send_attachments := None;
     send_parentMessageId := None |}.

Definition greeting : SendMessage :=
  {| send_roomId := "qa_j1_u2"; send_content := " hi there ";
     send_messageType := None; send_attachments := None;
     send_parentMessageId := None |}.

Definition stateDown : State :=
  {| gateway := handleConnection alice gateway0; world := worldDown |}.

End Sample.
(** ** Journeys, as far as the chat service reads them (journeyModel) *)

Module Journey.

Record t : Type := {
  title : string;
  creator : string
}.

End Journey.

(** ** The room constructors of the persistence service (chatService) *)

Module ChatRooms.
Import Message Collection RedisClient ChatService.

(** [Journey.findById(journeyId)] on the journeys of the same store. *)
Definition findJourney (journeyId : string) (journeys : gmap string Journey.t)
    (w : World) : result (option Journey.t) :=
  if connected (db w) then Ok (journeys !! journeyId) else Throw storageFailure.

(** The double quote of the welcome text. *)
Definition quote : string := String (Ascii.ascii_of_nat 34) EmptyString.

Definition welcome (journeyTitle : string) : string :=
  "Welcome to the planning chat for " +:+ quote +:+ journeyTitle +:+ quote
  +:+ "! Let's collaborate on this amazing journey.".

Record GroupChat : Type := {
  group_chatRoom : string;
  welcomeMessage : Message.t
}.

(** [createGroupPlanningChat(journeyId, creatorId)]; the [systemData] of
    the welcome message is not kept by the model of the document. *)
Definition createGroupPlanningChat (journeyId creatorId : string) (now : Z)
    (journeys : gmap string Journey.t) (w : World) : result GroupChat * World :=
  match findJourney journeyId journeys w with
  | Throw e => (Throw e, w)
  | Ok None => (Throw (Err "Journey not found"), w)
  | Ok (Some journey) =>
      if negb (String.eqb (Journey.creator journey) creatorId)
      then (Throw (Err "Only journey creator can create group chat"), w)
      else
        let chatRoom := "journey_" +:+ journeyId in
        match saveMessage
                {| data_sender := creatorId;
                   data_content := welcome (Journey.title journey);
                   data_messageType := "system";
                   data_chatRoom := chatRoom;
                   data_chatType := "group_planning";
                   data_attachments := [];
                   data_parentMessage := None;
                   data_journeyId := Some journeyId;
                   data_location := None |} now w with
        | (Throw e, w') => (Throw e, w')
        | (Ok message, w') =>
            (Ok {| group_chatRoom := chatRoom; welcomeMessage := message |}, w')
        end
  end.

Record LocationChat : Type := {
  location_chatRoom : string;
  chat_location : Location
}.

(** [createLocationChat(locationData, userId)].  The two coordinates are
    given as the texts the template literal prints for them. *)
Definition createLocationChat (name lat lon : string) : LocationChat :=
  {| location_chatRoom := "location_" +:+ lat +:+ "_" +:+ lon;
     chat_location := {| loc_name := Some name; latitude := Some lat;
                         longitude := Some lon |} |}.



End ChatRooms.

(** ** Connection set-up and the exported helpers of the gateway
    (chatSocket) *)

Module Presence.
Import Message Collection ChatService ChatSocket.

(** What the authentication middleware reads of the handshake. *)
Record Handshake : Type := {
  auth_token : option string;
  authorization : option string
}.

(** The blank of [split(' ')]. *)
Definition space : Ascii.ascii := Ascii.ascii_of_nat 32.

(** [socket.handshake.auth.token ||
     socket.handshake.headers.authorization?.split(' ')[1]] *)
Definition handshakeToken (h : Handshake) : option string :=
  if truthy (auth_token h) then auth_token h
  else match authorization h with
       | None => None
       | Some header => split space header !! 1%nat
       end.

Section Middleware.
(** [jwt.verify(token, jwtSecret)]: the [userId] of the decoded token, or
    [None] when it throws. *)
Variable verify : string -> option string.

(** The middleware of [io.use]: the user the socket is authenticated as,
    or the error handed to [next]. *)
Definition authenticate (h : Handshake) : result string :=
  if negb (truthy (handshakeToken h))
  then Throw (Err "Authentication token required")
  else match handshakeToken h with
       | None => Throw (Err "Authentication token required")
       | Some token =>
           match verify token with
           | Some user => Ok user
           | None => Throw (Err "Authentication failed")
           end
       end.

(** A connection attempt: [handleConnection] runs only for a socket the
    middleware let through. *)
Definition connect (id : string) (h : Handshake) (g : Gateway) : result Gateway :=
  match authenticate h with
  | Ok user => Ok (handleConnection {| socket_id := id; userId := user |} g)
  | Throw e => Throw e
  end.
End Middleware.

(** [sendNotificationToUser(userId, notification)]: the emission of the
    [notification] event, if any. *)
Definition sendNotificationToUser (user : string) (notification : value)
    (g : Gateway) : list (Target * value) :=
  match connectedUsers g !! user with
  | Some socketId =>
      if String.eqb socketId "" then []
      else [(ToRoom ("user_" +:+ user), notification)]
  | None => []
  end.

(** [getOnlineUsersInRoom(roomId)]: the ids of the sockets in the room. *)
Definition getOnlineUsersInRoom (roomId : string) (g : Gateway) : list string :=
  match rooms g !! roomId with
  | Some ids => elements ids
  | None => []
  end.

End Presence.

(** ** The HTTP surface (chatController) *)

Module ChatController.
Import Message Collection RedisClient ChatService.

(** What a handler does with [res] and [next]. *)
Inductive Reply (A : Type) : Type :=
| Json (status : nat) (body : A)          (* res.status(status).json(body) *)
| Refuse (status : nat) (message : string) (* { success: false, message } *)
| Next (e : Error).                        (* next(error) *)
Arguments Json {A} status body.
Arguments Refuse {A} status message.
Arguments Next {A} e.

Record SendBody : Type := {
  body_roomId : string;
  body_content : string;
  body_messageType : option string;
  body_parentMessageId : option N
}.

(** The chat type the handler works out from the room id. *)
Definition chatTypeOf (roomId : string) : string :=
  if startsWith roomId "journey_" then "group_planning"
  else if startsWith roomId "location_" then "location_chat"
  else if startsWith roomId "qa_" then "qa_chat"
  else "direct".

Definition messageData (user : string) (b : SendBody) : MessageData :=
  {| data_sender := user;
     data_content := trim (body_content b);
     data_messageType := default "text" (body_messageType b);
     data_chatRoom := body_roomId b;
     data_chatType := chatTypeOf (body_roomId b);
     data_attachments := [];
     data_parentMessage := body_parentMessageId b;
     data_journeyId := None;
     data_location := None |}.

(** [sendMessage(req, res, next)] *)
Definition sendMessage (user : string) (b : SendBody) (now : Z) (w : World) :
    Reply Message.t * World :=
  if String.eqb (body_roomId b) "" || String.eqb (body_content b) ""
  then (Refuse 400 "Room ID and content are required", w)
  else if Nat.eqb (String.length (trim (body_content b))) 0
  then (Refuse 400 "Message content cannot be empty", w)
  else if Nat.ltb 1000 (String.length (body_content b))
  then (Refuse 400 "Message cannot exceed 1000 characters", w)
  else
    match saveMessage (messageData user b) now w with
    | (Ok savedMessage, w') => (Json 201 savedMessage, w')
    | (Throw e, w') => (Next e, w')
    end.

(** The [catch] of [editMessage]: the two errors of the service that have
    a status of their own. *)
Definition editFailure (e : Error) : Reply Ack :=
  match e with
  | Err message =>
      if String.eqb message "Message not found" then Refuse 404 message
      else if String.eqb message "Can only edit your own messages"
           then Refuse 403 message
           else Next e
  | TypeError _ => Next e
  end.

(** [editMessage(req, res, next)], for a message id present in the route. *)
Definition editMessage (user : string) (messageId : N) (content : string)
    (now : Z) (w : World) : Reply Ack * World :=
  if String.eqb content "" || Nat.eqb (String.length (trim content)) 0
  then (Refuse 400 "Message content is required", w)
  else if Nat.ltb 1000 (String.length content)
  then (Refuse 400 "Message cannot exceed 1000 characters", w)
  else
    match ChatService.editMessage messageId user (trim content) now w with
    | (Ok result, w') => (Json 200 result, w')
    | (Throw e, w') => (editFailure e, w')
    end.

(** The [catch] of [deleteMessage]. *)
Definition deleteFailure (e : Error) : Reply Ack :=
  match e with
  | Err message =>
      if String.eqb message "Message not found" then Refuse 404 message
      else if String.eqb message "Can only delete your own messages"
           then Refuse 403 message
           else Next e
  | TypeError _ => Next e
  end.

(** [deleteMessage(req, res, next)], for a message id present in the
    route. *)
Definition deleteMessage (user : string) (messageId : N) (now : Z) (w : World) :
    Reply Ack * World :=
  match ChatService.deleteMessage messageId user now w with
  | (Ok result, w') => (Json 200 result, w')
  | (Throw e, w') => (deleteFailure e, w')
  end.

(** The [catch] of [addReaction] and of [removeReaction]. *)
Definition reactionFailure (e : Error) : Reply Ack :=
  match e with
  | Err message =>
      if String.eqb message "Message not found" then Refuse 404 message
      else Next e
  | TypeError _ => Next e
  end.

(** [addReaction(req, res, next)], for a message id present in the
    route. *)
Definition addReaction (user : string) (messageId : N) (e : string) (now : Z)
    (w : World) : Reply Ack * World :=
  if String.eqb e "" || Nat.eqb (String.length (trim e)) 0
  then (Refuse 400 "Emoji is required", w)
  else if Nat.ltb 10 (String.length e)
  then (Refuse 400 "Invalid emoji format", w)
  else
    match ChatService.addReaction messageId user (trim e) now w with
    | (Ok result, w') => (Json 200 result, w')
    | (Throw err, w') => (reactionFailure err, w')
    end.

End ChatController.

(** ** Further properties and scenarios *)

Module Props2.
Import Message Collection RedisClient ChatService ChatSocket Props.

(** The ids of a collection are pairwise distinct and below the counter,
    and every document passes the validation of the schema. *)
Definition storeOk (c : Collection.t) : Prop :=
  NoDup (map _id (docs c))
  /\ Forall (fun m => (_id m < nextId c)%N) (docs c)
  /\ Forall (fun m => validate m = true) (docs c).

(** A call of the service. *)
Inductive Call : Type :=
| SaveCall (d : MessageData)
| HistoryCall (room : string) (page limit : Z)
| MutateCall (mu : Mutation).

Definition runCall (w : World) (call : Call * Z) : World :=
  match call with
  | (SaveCall d, now) => snd (saveMessage d now w)
  | (HistoryCall room page limit, now) => snd (getChatHistory room page limit now w)
  | (MutateCall mu, now) => snd (runMutation mu now w)
  end.

Definition runCalls (calls : list (Call * Z)) (w : World) : World :=
  fold_left runCall calls w.

(** What a later version of a document keeps of an earlier one: its id,
    sender, room, chat type and creation time, and its deletion flag once
    set. *)
Definition keeps (m m' : Message.t) : Prop :=
  _id m' = _id m /\ sender m' = sender m /\ chatRoom m' = chatRoom m
  /\ chatType m' = chatType m /\ createdAt m' = createdAt m
  /\ (isDeleted m = true -> isDeleted m' = true).

(** The number of occurrences of the separator ['_'] in a string. *)
Fixpoint underscores (s : string) : nat :=
  match s with
  | EmptyString => 0
  | String c s' => (if Ascii.eqb c ChatSocket.underscore then 1 else 0) + underscores s'
  end.

(** The number of blanks in a string. *)
Fixpoint spaces (s : string) : nat :=
  match s with
  | EmptyString => 0
  | String c s' => (if Ascii.eqb c Presence.space then 1 else 0) + spaces s'
  end.

(** The documents of a room that a history read selects. *)
Definition eligible (room : string) (w : World) : list Message.t :=
  List.filter (inHistory room) (docs (db w)).

End Props2.

(** ** More sample data *)

Module Sample2.
Import Message Collection RedisClient ChatService ChatSocket.

Definition trip : Journey.t :=
  {| Journey.title := "Alps"; Journey.creator := "alice" |}.

Definition journeys : gmap string Journey.t := {[ "j1" := trip ]}.

Definition noCache : World :=
  {| db := Sample.store; client := None |}.

End Sample2.

(** * Theorems *)

Import Message Collection RedisClient ChatService ChatSocket Props.

(** The steps a successful mutation of one message went through: the
    message was found, the sender check (if any) passed, [save] returned. *)
Ltac open_mutation Hrun Hf Hs :=
  match type of Hrun with
  | context [findById ?id ?d] =>
      destruct (findById id d) as [[?m|]|] eqn:Hf; [|by inversion Hrun..]
  end;
  try match type of Hrun with
      | context [negb (String.eqb ?a ?b)] =>
          destruct (negb (String.eqb a b)); [by inversion Hrun|]
      end;
  match type of Hrun with
  | context [save ?e ?now ?d] =>
      destruct (save e now d) as [[?m' ?d']|] eqn:Hs; [|by inversion Hrun]
  end.

(** ** Reactions of a document *)

Section Reactions.
Implicit Types (rs : list Reaction) (u v e : string).

Lemma existingReaction_None u rs :
  existingReaction u rs = None <-> u ∉ map reaction_user rs.
Proof.
  unfold existingReaction. induction rs as [|r rs IH]; simpl.
  - split; [intros _; apply not_elem_of_nil | done].
  - rewrite not_elem_of_cons. destruct (String.eqb_spec (reaction_user r) u) as [E|E].
    + split; [done | intros [H _]; congruence].
    + rewrite IH. split; [intros H; split; [congruence | done] | tauto].
Qed.

Lemma setFirstEmoji_users u e rs :
  map reaction_user (setFirstEmoji u e rs) = map reaction_user rs.
Proof.
  induction rs as [|r rs IH]; simpl; [done|].
  destruct (String.eqb (reaction_user r) u); simpl; [done | by rewrite IH].
Qed.

Lemma filter_user_absent u rs :
  u ∉ map reaction_user rs ->
  List.filter (fun r => String.eqb (reaction_user r) u) rs = [].
Proof.
  induction rs as [|r rs IH]; simpl; [done|].
  rewrite not_elem_of_cons. intros [Hne Hrest].
  destruct (String.eqb_spec (reaction_user r) u); [congruence | auto].
Qed.

Lemma filter_setFirstEmoji u e rs :
  NoDup (map reaction_user rs) -> u ∈ map reaction_user rs ->
  exists r, List.filter (fun r => String.eqb (reaction_user r) u)
              (setFirstEmoji u e rs) = [r]
            /\ reaction_user r = u /\ emoji r = e.
Proof.
  induction rs as [|r rs IH]; simpl; intros Hnd Hin.
  - by apply elem_of_nil in Hin.
  - apply NoDup_cons in Hnd as [Hr Hnd].
    destruct (String.eqb_spec (reaction_user r) u) as [E|E]; simpl.
    + rewrite E, String.eqb_refl. subst u.
      rewrite (filter_user_absent _ _ Hr). eauto.
    + destruct (String.eqb_spec (reaction_user r) u); [done|].
      apply elem_of_cons in Hin as [Hin|Hin]; [congruence | auto].
Qed.

Lemma filter_other_setFirstEmoji u v e rs :
  v <> u ->
  List.filter (fun r => String.eqb (reaction_user r) v) (setFirstEmoji u e rs)
  = List.filter (fun r => String.eqb (reaction_user r) v) rs.
Proof.
  intros Hne. induction rs as [|r rs IH]; simpl; [done|].
  destruct (String.eqb_spec (reaction_user r) u) as [E|E]; simpl.
  - destruct (String.eqb_spec (reaction_user r) v); [congruence | done].
  - destruct (String.eqb (reaction_user r) v); by rewrite IH.
Qed.

Lemma addReaction_keeps_invariant u e now m :
  oneReactionPerUser m -> oneReactionPerUser (Message.addReaction u e now m).
Proof.
  unfold oneReactionPerUser, Message.addReaction. intros Hnd.
  destruct (existingReaction u (reactions m)) eqn:Hfind; simpl.
  - by rewrite setFirstEmoji_users.
  - apply existingReaction_None in Hfind.
    rewrite map_app. simpl. apply NoDup_app. split; [done|].
    split; [|apply NoDup_singleton].
    intros x Hx Hx'. apply list_elem_of_singleton in Hx'. by subst.
Qed.

Lemma removeReaction_keeps_invariant u m :
  oneReactionPerUser m -> oneReactionPerUser (Message.removeReaction u m).
Proof.
  unfold oneReactionPerUser, Message.removeReaction. simpl.
  generalize (reactions m). intros rs. induction rs as [|r rs IH]; simpl; [done|].
  intros Hnd. apply NoDup_cons in Hnd as [Hr Hnd].
  destruct (String.eqb (reaction_user r) u); simpl; [auto|].
  apply NoDup_cons. split; [|auto].
  intros Hin. apply Hr. clear -Hin.
  induction rs as [|r' rs IH]; simpl in *; [done|].
  destruct (String.eqb (reaction_user r') u); simpl in *.
  - apply elem_of_cons. right. auto.
  - apply elem_of_cons in Hin as [->|Hin]; apply elem_of_cons; auto.
Qed.

Lemma addReaction_single u e now m :
  oneReactionPerUser m ->
  exists r, reactionsOf u (Message.addReaction u e now m) = [r]
            /\ reaction_user r = u /\ emoji r = e.
Proof.
  unfold oneReactionPerUser, reactionsOf, Message.addReaction. intros Hnd.
  destruct (existingReaction u (reactions m)) eqn:Hfind; simpl.
  - apply filter_setFirstEmoji; [done|].
    destruct (decide (u ∈ map reaction_user (reactions m))) as [|Hn]; [done|].
    apply existingReaction_None in Hn. congruence.
  - apply existingReaction_None in Hfind.
    rewrite List.filter_app, (filter_user_absent _ _ Hfind). simpl.
    rewrite String.eqb_refl. eauto.
Qed.

Lemma removeReaction_spec u m :
  reactionsOf u (Message.removeReaction u m) = []
  /\ (forall v, v <> u ->
        reactionsOf v (Message.removeReaction u m) = reactionsOf v m)
  /\ (reactionsOf u m = [] -> Message.removeReaction u m = set_reactions (reactions m) m).
Proof.
  unfold reactionsOf, Message.removeReaction. simpl.
  generalize (reactions m). intros rs. repeat split.
  - induction rs as [|r rs IH]; simpl; [done|].
    destruct (String.eqb (reaction_user r) u) eqn:E; simpl; [done|].
    by rewrite E.
  - intros v Hne. induction rs as [|r rs IH]; simpl; [done|].
    destruct (String.eqb_spec (reaction_user r) u) as [E|E]; simpl.
    + destruct (String.eqb_spec (reaction_user r) v); [congruence | done].
    + by rewrite IH.
  - intros Hnone. f_equal. induction rs as [|r rs IH]; simpl in *; [done|].
    destruct (String.eqb (reaction_user r) u); simpl in *; [done|].
    by rewrite IH.
Qed.
End Reactions.

(** C7. On a message with at most one reaction entry per user, as every
    new message is: two successive [addReaction] calls of one user leave
    exactly one entry of that user, holding the second emoji; every
    sequence of [addReaction] and [removeReaction] calls keeps at most one
    entry per user; [removeReaction] leaves no entry of the user, leaves the
    entries of the others, and changes nothing when the user has none. *)
Theorem reactions_one_per_user (m : Message.t) (u e1 e2 : string) (t1 t2 : Z)
    (ops : list ReactionOp) :
  oneReactionPerUser m ->
  (exists r, reactionsOf u (Message.addReaction u e2 t2 (Message.addReaction u e1 t1 m)) = [r]
             /\ reaction_user r = u /\ emoji r = e2)
  /\ oneReactionPerUser (runReactionOps ops m)
  /\ reactionsOf u (Message.removeReaction u m) = []
  /\ (forall v, v <> u ->
        reactionsOf v (Message.removeReaction u m) = reactionsOf v m)
  /\ (reactionsOf u m = [] -> reactions (Message.removeReaction u m) = reactions m).
Proof.
  intros Hinv. split; [|split].
  - apply addReaction_single. by apply addReaction_keeps_invariant.
  - unfold runReactionOps. revert m Hinv.
    induction ops as [|op ops IH]; simpl; intros m Hinv; [done|].
    apply IH. destruct op; simpl.
    + by apply addReaction_keeps_invariant.
    + by apply removeReaction_keeps_invariant.
  - destruct (removeReaction_spec u m) as (H1 & H2 & H3).
    repeat split; [done | done |]. intros Hnone. by rewrite (H3 Hnone).
Qed.

Lemma reactions_one_per_user_witness :
  exists r, reactionsOf "bob"
              (Message.addReaction "bob" "b" 2 (Message.addReaction "bob" "a" 1 Sample.hello)) = [r]
            /\ reaction_user r = "bob" /\ emoji r = "b".
Proof.
  apply (reactions_one_per_user Sample.hello "bob" "a" "b" 1 2 []).
  unfold oneReactionPerUser. simpl. apply NoDup_nil_2.
Defined.

(** ** Presence *)

Lemma handleConnection_presence (s : Socket) (g : Gateway) :
  connectedUsers (handleConnection s g) !! userId s = Some (socket_id s)
  /\ sockets (handleConnection s g) !! socket_id s = Some (userId s).
Proof. unfold handleConnection, join. simpl. by rewrite !lookup_insert_eq. Qed.

(** C10. A disconnect of any socket of a user removes the user's entry of
    the presence map, whichever socket the entry names: after the older of
    two sockets of one user disconnects, the map has no entry for the user
    while the newer socket is still among the live ones. *)
Theorem disconnect_clears_presence (g : Gateway) (u older newer : string) :
  older <> newer ->
  let s1 := {| socket_id := older; userId := u |} in
  let s2 := {| socket_id := newer; userId := u |} in
  let both := handleConnection s2 (handleConnection s1 g) in
  connectedUsers both !! u = Some newer
  /\ connectedUsers (disconnect s1 both) !! u = None
  /\ sockets (disconnect s1 both) !! newer = Some u
  /\ (forall (s : Socket) (g' : Gateway),
        connectedUsers (disconnect s g') !! userId s = None).
Proof.
  intros Hne s1 s2 both. unfold both, handleConnection, join, disconnect. simpl.
  repeat split.
  - by rewrite lookup_insert_eq.
  - by rewrite lookup_delete_eq.
  - rewrite lookup_delete_ne by done. by rewrite lookup_insert_eq.
  - intros s g'. by rewrite lookup_delete_eq.
Qed.

Lemma disconnect_clears_presence_witness :
  connectedUsers
    (disconnect Sample.alice
       (handleConnection Sample.alice2
          (handleConnection Sample.alice Sample.gateway0))) !! "alice" = None
  /\ sockets
       (disconnect Sample.alice
          (handleConnection Sample.alice2
             (handleConnection Sample.alice Sample.gateway0))) !! "s2" = Some "alice".
Proof.
  destruct (disconnect_clears_presence Sample.gateway0 "alice" "s1" "s2")
    as (_ & H1 & H2 & _); [discriminate|].
  split; [exact H1 | exact H2].
Defined.

(** ** Room access *)

(** C1. The access check grants every [qa_chat] request: whoever asks,
    and whoever the asker and the creator of the journey are, [join_room]
    on a [qa_<journey>_<asker>] room joins the socket, sends no access
    error, and emits the history and the [user_joined] broadcast when the
    history can be read. *)
Theorem qa_room_join_granted (s : Socket) (j a : string) (now : Z) (st : State) :
  let room := "qa_" +:+ j +:+ "_" +:+ a in
  let data := {| join_roomId := room; join_roomType := "qa_chat" |} in
  validateRoomAccess (userId s) room "qa_chat" = true
  /\ socket_id s ∈ members (gateway (fst (join_room s data now st))) room
  /\ ~ (emit (ToSocket (socket_id s)) (error "Access denied to this chat room")
         ∈ snd (join_room s data now st))
  /\ (forall history w,
        getChatHistory room 1 20 now (world st) = (Ok history, w) ->
        snd (join_room s data now st)
        = [emit (ToSocket (socket_id s)) (chat_history history);
           emit (ToRoomExcept room (socket_id s)) (user_joined (userId s) now)]).
Proof.
  intros room data. split; [reflexivity|].
  unfold join_room. simpl negb. cbv iota.
  assert (Hmem : forall g, socket_id s ∈ members (join s room g) room).
  { intros g. unfold members, join. simpl. rewrite lookup_insert_eq. simpl.
    set_solver. }
  destruct (getChatHistory (join_roomId data) 1 20 now (world st))
    as [[history|e] w] eqn:Hh; simpl.
  - split; [apply Hmem|]. split.
    + intros Hin. repeat (apply elem_of_cons in Hin as [Hin|Hin]; [discriminate|]).
      by apply elem_of_nil in Hin.
    + intros h' w' Heq. unfold data in Hh. simpl in Hh. congruence.
  - split; [apply Hmem|]. split.
    + intros Hin. repeat (apply elem_of_cons in Hin as [Hin|Hin]; [discriminate|]).
      by apply elem_of_nil in Hin.
    + intros h' w' Heq. unfold data in Hh. simpl in Hh. congruence.
Qed.

(** The third party of the sample: [u3] is neither the asker [u2] nor the
    sender of anything in the room, and joins [qa_j1_u2]. *)
Example qa_room_third_party_joins :
  snd (join_room Sample.mallory
         {| join_roomId := "qa_j1_u2"; join_roomType := "qa_chat" |} 500
         {| gateway := handleConnection Sample.mallory Sample.gateway0;
            world := Sample.world0 |})
  = [emit (ToSocket "s9")
       (chat_history
          {| messages := [Sample.hello];
             pagination := {| currentPage := 1; totalPages := 1;
                              totalMessages := 1; hasNext := false;
                              hasPrev := false |} |});
     emit (ToRoomExcept "qa_j1_u2" "s9") (user_joined "u3" 500)].
Proof. vm_compute. reflexivity. Qed.

(** ** The relay *)

Lemma lastPublished_clearAndPublish room payload (c : RedisClient.Client History)
    (d : Collection.t) :
  c <> None ->
  lastPublished {| db := d; client := clearAndPublish room payload c |} = Some payload.
Proof.
  intros Hc. destruct c as [st|]; [|done].
  unfold lastPublished, clearAndPublish. simpl. by rewrite last_snoc.
Qed.

(** C2. Every event a successful mutation publishes ([reaction_added],
    [reaction_removed], [message_edited], [message_deleted],
    [messages_read]) has no [message] field, so the relay throws on its
    read of [payload.message.chatRoom] and nothing is re-emitted. *)
Theorem relay_throws_on_published_event (mu : Mutation) (now : Z) (w w' : World) :
  client w <> None ->
  runMutation mu now w = (Ok tt, w') ->
  exists payload,
    lastPublished w' = Some payload
    /\ handleRedisMessage payload = Throw noMessageField
    /\ onPublished payload = [].
Proof.
  intros Hc Hrun.
  destruct mu as [id u c|id u|id u e|id u|room u ids]; simpl in Hrun.
  1-4: unfold editMessage, deleteMessage, ChatService.addReaction,
         ChatService.removeReaction in Hrun;
       open_mutation Hrun Hf Hs;
       inversion Hrun; subst w'; clear Hrun; eexists;
       (split; [by apply lastPublished_clearAndPublish|]); by split.
  unfold markMessagesAsRead in Hrun.
  destruct (updateManyRead room u ids now (db w)) as [[n d']|]; [|by inversion Hrun].
  inversion Hrun; subst w'; clear Hrun. eexists.
  split; [by apply (lastPublished_clearAndPublish room)|]. by split.
Qed.

Lemma relay_throws_on_published_event_witness :
  exists payload,
    lastPublished (snd (runMutation (React 7 "bob" "+1") 300 Sample.world0))
    = Some payload
    /\ handleRedisMessage payload = Throw noMessageField
    /\ onPublished payload = [].
Proof.
  apply (relay_throws_on_published_event (React 7 "bob" "+1") 300 Sample.world0).
  - discriminate.
  - vm_compute. reflexivity.
Defined.

(** With a [message] field that carries the room, as [new_message] has
    it, the same relay code re-emits to that room. *)
Example relay_with_message_field :
  handleRedisMessage
    (JObj [("type", JStr "message_deleted"); ("messageId", JNum 7);
           ("message", toJSON Sample.hello)])
  = Ok [emit (ToRoom "qa_j1_u2") (message_deleted (JNum 7))].
Proof. reflexivity. Qed.

(** ** Strings *)

Section Strings.
Implicit Types (s : string).

Lemma trimStart_empty s : trimStart s = "" <-> allWhiteSpace s = true.
Proof.
  induction s as [|c s IH]; simpl; [done|].
  destruct (isWhiteSpace c); simpl; [done|]. split; discriminate.
Qed.

Lemma allWhiteSpace_trimStart s : allWhiteSpace (trimStart s) = allWhiteSpace s.
Proof.
  induction s as [|c s IH]; simpl; [done|].
  destruct (isWhiteSpace c) eqn:E; simpl; [done|]. by rewrite E.
Qed.

Lemma allWhiteSpace_rev_app s1 s2 :
  allWhiteSpace (String.rev_app s1 s2) = allWhiteSpace s1 && allWhiteSpace s2.
Proof.
  revert s2. induction s1 as [|c s1 IH]; intros s2; simpl; [done|].
  rewrite IH. simpl. destruct (isWhiteSpace c), (allWhiteSpace s1); simpl; done.
Qed.

Lemma rev_app_empty s1 s2 : String.rev_app s1 s2 = "" <-> s1 = "" /\ s2 = "".
Proof.
  revert s2. induction s1 as [|c s1 IH]; intros s2; simpl.
  - split; [done | by intros [_ ->]].
  - rewrite IH. split; [intros [_ H]; discriminate | intros [H _]; discriminate].
Qed.

Lemma trim_empty s : trim s = "" <-> allWhiteSpace s = true.
Proof.
  unfold trim, trimEnd, String.rev. rewrite rev_app_empty, trimStart_empty.
  rewrite allWhiteSpace_rev_app, allWhiteSpace_trimStart. simpl.
  rewrite andb_true_r. tauto.
Qed.

Lemma length_zero s : Nat.eqb (String.length s) 0 = true <-> s = "".
Proof. destruct s; simpl; split; done. Qed.

(** The first test of [send_message] is the test for an empty or blank
    content. *)
Lemma content_required_test s :
  String.eqb s "" || Nat.eqb (String.length (trim s)) 0 = allWhiteSpace s.
Proof.
  destruct (allWhiteSpace s) eqn:E.
  - apply trim_empty in E. rewrite E. simpl. apply orb_true_r.
  - apply orb_false_iff. split.
    + apply String.eqb_neq. intros ->. discriminate.
    + apply not_true_is_false. rewrite length_zero, trim_empty. congruence.
Qed.
End Strings.

(** ** The handlers of the gateway *)

Lemma delegate_throw {A : Type} (s : Socket) (call : World -> result A * World)
    (onError : list Emission) (st : State) (e : Error) (w : World) :
  call (world st) = (Throw e, w) ->
  delegate s call onError st = ({| gateway := gateway st; world := w |}, onError).
Proof. intros H. unfold delegate. by rewrite H. Qed.

(** C9. When [markMessagesAsRead] throws, the [mark_messages_read]
    handler catches the failure, keeps the gateway as it is and emits
    nothing: the triggering client gets no [error] event. *)
Theorem mark_messages_read_failure_unreported (s : Socket) (roomId : string)
    (messageIds : option (list N)) (now : Z) (st : State) (e : Error) (w : World) :
  markMessagesAsRead roomId (userId s) (default [] messageIds) now (world st)
  = (Throw e, w) ->
  mark_messages_read s roomId messageIds now st
  = ({| gateway := gateway st; world := w |}, []).
Proof. intros H. unfold mark_messages_read. by apply (delegate_throw _ _ _ _ e). Qed.

Lemma mark_messages_read_failure_unreported_witness :
  mark_messages_read Sample.alice "qa_j1_u2" None 300 Sample.stateDown
  = ({| gateway := gateway Sample.stateDown; world := Sample.worldDown |}, []).
Proof.
  apply (mark_messages_read_failure_unreported Sample.alice "qa_j1_u2" None 300
           Sample.stateDown storageFailure Sample.worldDown).
  reflexivity.
Defined.

(** The six other handlers with a [catch] emit one [error] event to the
    triggering socket when the call they make throws, and leave the live
    sockets and the presence map alone. *)
Lemma other_handlers_report_failure (s : Socket) (now : Z) (st : State)
    (e : Error) (w : World) :
  (forall data,
     validateRoomAccess (userId s) (join_roomId data) (join_roomType data) = true ->
     getChatHistory (join_roomId data) 1 20 now (world st) = (Throw e, w) ->
     snd (join_room s data now st)
     = [emit (ToSocket (socket_id s)) (error "Failed to join chat room")]
     /\ sockets (gateway (fst (join_room s data now st))) = sockets (gateway st)
     /\ connectedUsers (gateway (fst (join_room s data now st)))
        = connectedUsers (gateway st))
  /\ (forall data,
        allWhiteSpace (send_content data) = false ->
        String.length (send_content data) <= 1000 ->
        saveMessage (messageData s data) now (world st) = (Throw e, w) ->
        send_message s data now st
        = ({| gateway := gateway st; world := w |},
           [emit (ToSocket (socket_id s)) (error "Failed to send message")]))
  /\ (forall id em,
        ChatService.addReaction id (userId s) em now (world st) = (Throw e, w) ->
        add_reaction s id em now st
        = ({| gateway := gateway st; world := w |},
           [emit (ToSocket (socket_id s)) (error "Failed to add reaction")]))
  /\ (forall id,
        ChatService.removeReaction id (userId s) now (world st) = (Throw e, w) ->
        remove_reaction s id now st
        = ({| gateway := gateway st; world := w |},
           [emit (ToSocket (socket_id s)) (error "Failed to remove reaction")]))
  /\ (forall id c,
        editMessage id (userId s) c now (world st) = (Throw e, w) ->
        edit_message s id c now st
        = ({| gateway := gateway st; world := w |},
           [emit (ToSocket (socket_id s)) (error "Failed to edit message")]))
  /\ (forall id,
        deleteMessage id (userId s) now (world st) = (Throw e, w) ->
        delete_message s id now st
        = ({| gateway := gateway st; world := w |},
           [emit (ToSocket (socket_id s)) (error "Failed to delete message")])).
Proof.
  split; [|repeat split].
  - intros data Hok Hh. unfold join_room. rewrite Hok. simpl. by rewrite Hh.
  - intros data Hws Hlen Hsave. unfold send_message.
    rewrite content_required_test, Hws.
    destruct (Nat.ltb_spec 1000 (String.length (send_content data))); [lia|].
    by rewrite Hsave.
  - intros id em H. by apply (delegate_throw _ _ _ _ e).
  - intros id H. by apply (delegate_throw _ _ _ _ e).
  - intros id c H. by apply (delegate_throw _ _ _ _ e).
  - intros id H. by apply (delegate_throw _ _ _ _ e).
Qed.

(** C4. A [send_message] whose content is empty, blank or longer than 1000
    characters gets one [error] event on the sending socket, and the state,
    the store with it, is left as it was: nothing is saved, published or
    broadcast.  For any other content, once [saveMessage] has saved the
    message, the one emission is [new_message] with the saved message to
    the room, which reaches every member, the sender among them. *)
Theorem send_message_checks (s : Socket) (data : SendMessage) (now : Z) (st : State) :
  (allWhiteSpace (send_content data) = true
   \/ 1000 < String.length (send_content data) ->
   send_message s data now st
   = (st, [emit (ToSocket (socket_id s))
             (error (if allWhiteSpace (send_content data)
                     then "Message content is required"
                     else "Message too long (max 1000 characters)"))])
   /\ recipients (gateway st) (ToSocket (socket_id s)) = {[ socket_id s ]})
  /\ (allWhiteSpace (send_content data) = false ->
      String.length (send_content data) <= 1000 ->
      forall saved w,
        saveMessage (messageData s data) now (world st) = (Ok saved, w) ->
        send_message s data now st
        = ({| gateway := gateway st; world := w |},
           [emit (ToRoom (send_roomId data)) (new_message saved)])
        /\ (forall member, member ∈ members (gateway st) (send_roomId data) ->
              member ∈ recipients (gateway (fst (send_message s data now st)))
                         (ToRoom (send_roomId data)))
        /\ (socket_id s ∈ members (gateway st) (send_roomId data) ->
            socket_id s ∈ recipients (gateway (fst (send_message s data now st)))
                            (ToRoom (send_roomId data)))).
Proof.
  split.
  - intros Hbad. unfold send_message. rewrite content_required_test.
    destruct (allWhiteSpace (send_content data)) eqn:Hws; [done|].
    destruct Hbad as [Hbad|Hlong]; [discriminate|].
    by destruct (Nat.ltb_spec 1000 (String.length (send_content data))); [|lia].
  - intros Hws Hlen saved w Hsave.
    assert (Hrun : send_message s data now st
                   = ({| gateway := gateway st; world := w |},
                      [emit (ToRoom (send_roomId data)) (new_message saved)])).
    { unfold send_message. rewrite content_required_test, Hws.
      destruct (Nat.ltb_spec 1000 (String.length (send_content data))); [lia|].
      by rewrite Hsave. }
    rewrite Hrun. simpl. auto.
Qed.

Lemma send_message_checks_witness :
  (send_message Sample.alice Sample.blank 300 Sample.state0
   = (Sample.state0, [emit (ToSocket "s1") (error "Message content is required")])
   /\ recipients (gateway Sample.state0) (ToSocket "s1") = {[ "s1" ]})
  /\ exists saved w,
       send_message Sample.alice Sample.greeting 300 Sample.state0
       = ({| gateway := gateway Sample.state0; world := w |},
          [emit (ToRoom "qa_j1_u2") (new_message saved)])
       /\ content saved = "hi there".
Proof.
  split.
  - apply (send_message_checks Sample.alice Sample.blank 300 Sample.state0).
    left. reflexivity.
  - destruct (saveMessage (messageData Sample.alice Sample.greeting) 300
                (world Sample.state0)) as [[saved|e] w] eqn:Hsave;
      [|vm_compute in Hsave; discriminate].
    exists saved, w. split.
    + apply (send_message_checks Sample.alice Sample.greeting 300 Sample.state0);
        [reflexivity | simpl; lia | exact Hsave].
    + vm_compute in Hsave. by inversion Hsave.
Defined.

(** A content of 1001 characters, none of them blank. *)
Example send_message_too_long :
  let long := {| send_roomId := "qa_j1_u2";
                 send_content := String.concat "" (replicate 1001 "x");
                 send_messageType := None; send_attachments := None;
                 send_parentMessageId := None |} in
  send_message Sample.alice long 300 Sample.state0
  = (Sample.state0,
     [emit (ToSocket "s1") (error "Message too long (max 1000 characters)")]).
Proof. vm_compute. reflexivity. Qed.

(** ** The history cache under mutations *)

Section HistoryCache.
Implicit Types (c : RedisClient.Client History) (w : World).

Lemma cacheKey_not_pattern room page limit :
  cacheKey room page limit <> historyPattern room.
Proof.
  unfold cacheKey, historyPattern. intros Heq.
  apply (inj (String.app "chat_history:")) in Heq.
  apply (inj (String.app room)) in Heq. discriminate.
Qed.

Lemma getCache_deleteCache_ne k k' t c :
  k <> k' -> getCache k t (deleteCache k' c) = getCache k t c.
Proof.
  intros Hne. destruct c as [st|]; simpl; [|done].
  by rewrite lookup_delete_ne.
Qed.

Lemma getCache_publishMessage k t channel payload c :
  getCache k t (publishMessage channel payload c) = getCache k t c.
Proof. by destruct c. Qed.

Lemma getCache_clearAndPublish room page limit t payload c :
  getCache (cacheKey room page limit) t (clearAndPublish room payload c)
  = getCache (cacheKey room page limit) t c.
Proof.
  unfold clearAndPublish. rewrite getCache_publishMessage.
  apply getCache_deleteCache_ne, cacheKey_not_pattern.
Qed.

Lemma findById_find id d (o : option Message.t) :
  findById id d = Ok o -> List.find (fun m => N.eqb (_id m) id) (docs d) = o.
Proof. unfold findById. destruct (connected d); congruence. Qed.

Lemma save_inv m now d m' d' :
  save m now d = Ok (m', d') ->
  m' = touch now m
  /\ validate m' = true
  /\ connected d = true
  /\ d' = {| docs := replaceDoc m' (docs d); nextId := nextId d;
             connected := connected d |}.
Proof.
  unfold save. destruct (validate _) eqn:Hv; simpl; [|discriminate].
  destruct (connected d) eqn:Hc; simpl; [|discriminate].
  intros Heq. inversion Heq; subst. by rewrite Hv.
Qed.

Lemma chatRoom_applyEdit (newContent : string) now m :
  chatRoom (applyEdit newContent now m) = chatRoom m.
Proof. unfold applyEdit. by destruct (truthy (originalContent m)). Qed.

Lemma save_chatRoom m now d m' d' :
  save m now d = Ok (m', d') -> chatRoom m' = chatRoom m.
Proof. intros Hs. by apply save_inv in Hs as (-> & _). Qed.

Lemma chatRoom_addReaction u e now m :
  chatRoom (Message.addReaction u e now m) = chatRoom m.
Proof.
  unfold Message.addReaction. by destruct (existingReaction u (reactions m)).
Qed.

Lemma client_mk d c : client {| db := d; client := c |} = c.
Proof. reflexivity. Qed.
End HistoryCache.

(** C3. A successful mutation hands [deleteCache] the one name
    [chat_history:<room>*], which is not the key of any page of the room:
    every cached history page of the room is still there after the
    mutation, and the next [getChatHistory] for the room returns the page
    cached before it. *)
Theorem mutation_keeps_cached_history (mu : Mutation) (now t : Z) (w w' : World)
    (room : string) (page limit : Z) (cached : History) :
  runMutation mu now w = (Ok tt, w') ->
  mutationRoom mu w = Some room ->
  getCache (cacheKey room page limit) t (client w) = Some cached ->
  getCache (cacheKey room page limit) t (client w') = Some cached
  /\ getChatHistory room page limit t w' = (Ok cached, w').
Proof.
  intros Hrun Hroom Hhit.
  assert (Hsame : getCache (cacheKey room page limit) t (client w')
                  = getCache (cacheKey room page limit) t (client w)).
  { destruct mu as [id u c|id u|id u e|id u|r u ids]; simpl in Hrun, Hroom.
    1-4: unfold editMessage, deleteMessage, ChatService.addReaction,
           ChatService.removeReaction in Hrun;
         open_mutation Hrun Hf Hs;
         apply findById_find in Hf; rewrite Hf in Hroom; injection Hroom as <-;
         apply save_chatRoom in Hs;
         rewrite ?chatRoom_applyEdit, ?chatRoom_addReaction in Hs; simpl in Hs;
         inversion Hrun; subst w'; rewrite client_mk, Hs;
         apply getCache_clearAndPublish.
    unfold markMessagesAsRead in Hrun.
    destruct (updateManyRead r u ids now (db w)) as [[n d']|]; [|by inversion Hrun].
    inversion Hrun; subst w'. injection Hroom as ->. rewrite client_mk.
    apply (getCache_clearAndPublish room). }
  rewrite Hsame. split; [done|].
  unfold getChatHistory. by rewrite Hsame, Hhit.
Qed.

(** The message of the sample room is read (and cached) at time 200 and
    deleted by its sender at 300; at 400 the history still shows it. *)
Lemma mutation_keeps_cached_history_witness :
  let w' := snd (runMutation (Delete 7 "alice") 300 Sample.worldCached) in
  (isDeleted <$> docs (db w')) = [true]
  /\ fst (getChatHistory "qa_j1_u2" 1 20 400 w')
     = Ok {| messages := [Sample.hello];
             pagination := {| currentPage := 1; totalPages := 1;
                              totalMessages := 1; hasNext := false;
                              hasPrev := false |} |}.
Proof.
  intros w'. split; [vm_compute; reflexivity|].
  destruct (mutation_keeps_cached_history (Delete 7 "alice") 300 400
              Sample.worldCached w' "qa_j1_u2" 1 20
              {| messages := [Sample.hello];
                 pagination := {| currentPage := 1; totalPages := 1;
                                  totalMessages := 1; hasNext := false;
                                  hasPrev := false |} |}) as [_ H].
  - vm_compute. reflexivity.
  - vm_compute. reflexivity.
  - vm_compute. reflexivity.
  - rewrite H. reflexivity.
Defined.

(** ** Edits *)

Section Edits.
Implicit Types (m : Message.t) (d : Collection.t) (w : World).

Lemma find_replaceDoc id m' ds m :
  _id m' = id ->
  List.find (fun x => N.eqb (_id x) id) ds = Some m ->
  List.find (fun x => N.eqb (_id x) id) (replaceDoc m' ds) = Some m'.
Proof.
  intros Hid. induction ds as [|x ds IH]; simpl; [discriminate|].
  rewrite Hid. destruct (N.eqb_spec (_id x) id) as [E|E].
  - intros _. by rewrite Hid, N.eqb_refl.
  - destruct (N.eqb_spec (_id x) id); [done | auto].
Qed.

Lemma find_id id ds m :
  List.find (fun x => N.eqb (_id x) id) ds = Some m -> _id m = id.
Proof. intros H. apply find_some in H as [_ H]. by apply N.eqb_eq. Qed.

Lemma originalContent_applyEdit_set newContent now m :
  truthy (originalContent m) = true ->
  originalContent (applyEdit newContent now m) = originalContent m.
Proof. unfold applyEdit. by intros ->. Qed.

Lemma originalContent_applyEdit_first newContent now m :
  originalContent m = None ->
  originalContent (applyEdit newContent now m) = Some (content m).
Proof. unfold applyEdit. by intros ->. Qed.

Lemma applyEdit_content newContent now m :
  content (applyEdit newContent now m) = newContent
  /\ editedAt (applyEdit newContent now m) = Some now.
Proof. unfold applyEdit. by destruct (truthy (originalContent m)). Qed.

(** What a successful [editMessage] leaves in the collection. *)
Lemma editMessage_ok id u newContent now w ack w' m :
  findById id (db w) = Ok (Some m) ->
  editMessage id u newContent now w = (Ok ack, w') ->
  sender m = u
  /\ findById id (db w')
     = Ok (Some (touch now (applyEdit newContent now m))).
Proof.
  intros Hf Hrun. unfold editMessage in Hrun. rewrite Hf in Hrun.
  destruct (String.eqb_spec (sender m) u) as [Hu|Hu]; simpl in Hrun;
    [|by inversion Hrun].
  destruct (save _ now (db w)) as [[m' d']|] eqn:Hs; [|by inversion Hrun].
  apply save_inv in Hs as (Hm' & _ & Hc & ->).
  inversion Hrun; subst w'; clear Hrun. split; [done|].
  unfold findById. simpl. rewrite Hc. f_equal.
  apply findById_find in Hf. rewrite <- Hm'.
  apply (find_replaceDoc id m' (docs (db w)) m); [|done].
  rewrite Hm'. simpl. rewrite <- (find_id id (docs (db w)) m Hf).
  unfold applyEdit. by destruct (truthy (originalContent m)).
Qed.
End Edits.

(** C6. After two successive successful edits of a stored message that
    was never edited (its content is not empty, as the schema requires),
    [originalContent] is the content the message had before the
    first edit; each edit sets [content] to the new content and [editedAt]
    to the time of the edit; and an edit never changes an [originalContent]
    that is set. *)
Theorem editMessage_keeps_first_original (id : N) (u c1 c2 : string) (t1 t2 : Z)
    (w w1 w2 : World) (a1 a2 : Ack) (m : Message.t) :
  findById id (db w) = Ok (Some m) ->
  content m <> "" ->
  originalContent m = None ->
  editMessage id u c1 t1 w = (Ok a1, w1) ->
  editMessage id u c2 t2 w1 = (Ok a2, w2) ->
  (exists m1 m2,
     findById id (db w1) = Ok (Some m1)
     /\ findById id (db w2) = Ok (Some m2)
     /\ content m1 = c1 /\ editedAt m1 = Some t1
     /\ originalContent m1 = Some (content m)
     /\ content m2 = c2 /\ editedAt m2 = Some t2
     /\ originalContent m2 = Some (content m))
  /\ (forall m' c t,
        truthy (originalContent m') = true ->
        originalContent (applyEdit c t m') = originalContent m').
Proof.
  intros Hf Hcontent Hfresh He1 He2. split; [|intros m' c t; apply originalContent_applyEdit_set].
  destruct (editMessage_ok _ _ _ _ _ _ _ _ Hf He1) as [_ Hf1].
  destruct (editMessage_ok _ _ _ _ _ _ _ _ Hf1 He2) as [_ Hf2].
  eexists _, _. split; [exact Hf1|]. split; [exact Hf2|].
  pose proof (applyEdit_content c1 t1 m) as [Hc1 Ht1].
  pose proof (originalContent_applyEdit_first c1 t1 m Hfresh) as Ho1.
  set (m1 := touch t1 (applyEdit c1 t1 m)) in *.
  assert (Hm1 : originalContent m1 = Some (content m)) by exact Ho1.
  assert (Htruthy : truthy (originalContent m1) = true).
  { rewrite Hm1. simpl. apply negb_true_iff. by apply String.eqb_neq. }
  pose proof (applyEdit_content c2 t2 m1) as [Hc2 Ht2].
  pose proof (originalContent_applyEdit_set c2 t2 m1 Htruthy) as Ho2.
  repeat split; try done.
  change (originalContent (applyEdit c2 t2 m1) = Some (content m)).
  rewrite Ho2. exact Hm1.
Qed.

Lemma editMessage_keeps_first_original_witness :
  let w1 := snd (editMessage 7 "alice" "hallo" 300 Sample.world0) in
  let w2 := snd (editMessage 7 "alice" "hullo" 400 w1) in
  exists m1 m2,
    findById 7 (db w1) = Ok (Some m1)
    /\ findById 7 (db w2) = Ok (Some m2)
    /\ content m1 = "hallo" /\ editedAt m1 = Some 300%Z
    /\ originalContent m1 = Some "hello"
    /\ content m2 = "hullo" /\ editedAt m2 = Some 400%Z
    /\ originalContent m2 = Some "hello".
Proof.
  intros w1 w2.
  apply (editMessage_keeps_first_original 7 "alice" "hallo" "hullo" 300 400
           Sample.world0 w1 w2
           {| ack_message := "Message edited successfully" |}
           {| ack_message := "Message edited successfully" |} Sample.hello).
  - reflexivity.
  - discriminate.
  - reflexivity.
  - vm_compute. reflexivity.
  - vm_compute. reflexivity.
Defined.

(** ** Read receipts *)

Section ReadReceipts.
Implicit Types (m : Message.t) (d : Collection.t) (u room : string).

Lemma readByUser_elem u m :
  readByUser u m = false -> u ∉ map read_user (readBy m).
Proof.
  unfold readByUser. induction (readBy m) as [|r rs IH]; simpl.
  - intros _. apply not_elem_of_nil.
  - intros H. apply orb_false_iff in H as [Hr Hrs].
    apply not_elem_of_cons. split; [|auto].
    apply String.eqb_neq in Hr. congruence.
Qed.

Lemma readByUser_pushReadBy u now m : readByUser u (pushReadBy u now m) = true.
Proof.
  unfold readByUser, pushReadBy. simpl. rewrite existsb_app. simpl.
  rewrite String.eqb_refl. by rewrite orb_true_r.
Qed.

Lemma unreadQuery_unread room u ids m :
  unreadQuery room u ids m = true -> readByUser u m = false.
Proof.
  unfold unreadQuery. intros H.
  apply andb_true_iff in H as [H _]. apply andb_true_iff in H as [_ H].
  by apply negb_true_iff.
Qed.

Lemma unreadQuery_read room u ids m :
  readByUser u m = true -> unreadQuery room u ids m = false.
Proof.
  unfold unreadQuery. intros ->. simpl. by rewrite andb_false_r.
Qed.

Lemma unreadQuery_marked room u ids now m :
  unreadQuery room u ids (marked room u ids now m) = false.
Proof.
  unfold marked. destruct (unreadQuery room u ids m) eqn:E; [|done].
  apply unreadQuery_read, readByUser_pushReadBy.
Qed.

Lemma filter_unread_marked room u ids now ds :
  List.filter (unreadQuery room u ids) (map (marked room u ids now) ds) = [].
Proof.
  induction ds as [|m ds IH]; simpl; [done|].
  by rewrite unreadQuery_marked.
Qed.

Lemma marked_again room u ids t1 t2 ds :
  map (marked room u ids t2) (map (marked room u ids t1) ds)
  = map (marked room u ids t1) ds.
Proof.
  induction ds as [|m ds IH]; simpl; [done|].
  rewrite IH. f_equal. unfold marked at 1. by rewrite unreadQuery_marked.
Qed.

Lemma readCount_marked room u ids now ds :
  length (List.filter (readByUser u) (map (marked room u ids now) ds))
  = length (List.filter (readByUser u) ds)
    + length (List.filter (unreadQuery room u ids) ds).
Proof.
  induction ds as [|m ds IH]; simpl; [done|].
  unfold marked at 1. destruct (unreadQuery room u ids m) eqn:E.
  - rewrite readByUser_pushReadBy, (unreadQuery_unread _ _ _ _ E). simpl. lia.
  - destruct (readByUser u m); simpl; lia.
Qed.

Lemma pushReadBy_keeps_invariant u now m :
  readByUser u m = false ->
  oneReceiptPerUser m -> oneReceiptPerUser (pushReadBy u now m).
Proof.
  unfold oneReceiptPerUser, pushReadBy. simpl. intros Hu Hnd.
  rewrite map_app. simpl. apply NoDup_app. split; [done|].
  split; [|apply NoDup_singleton].
  intros x Hx Hx'. apply list_elem_of_singleton in Hx'. subst x.
  by apply (readByUser_elem u m).
Qed.

Lemma updateManyRead_inv room u ids now d n d' :
  updateManyRead room u ids now d = Ok (n, d') ->
  connected d = true
  /\ n = Z.of_nat (length (List.filter (unreadQuery room u ids) (docs d)))
  /\ d' = {| docs := map (marked room u ids now) (docs d);
             nextId := nextId d; connected := connected d |}.
Proof.
  unfold updateManyRead. destruct (connected d); [|discriminate].
  intros H. by inversion H.
Qed.
End ReadReceipts.

(** C8. After a successful [markMessagesAsRead], a second call with the
    same room, user and ids reports 0 and leaves every document as it is;
    the first call reports the number of messages that became read by the
    user, keeps at most one receipt per user on each message, leaves a
    message the user had read untouched, and marks every unread message of
    the room that the ids select, all of them when no id is given. *)
Theorem markMessagesAsRead_idempotent (room u : string) (ids : list N) (t1 t2 : Z)
    (w w1 : World) (r1 : MarkResult) :
  markMessagesAsRead room u ids t1 w = (Ok r1, w1) ->
  (exists w2,
     markMessagesAsRead room u ids t2 w1 = (Ok {| messagesMarked := 0 |}, w2)
     /\ docs (db w2) = docs (db w1))
  /\ (Forall oneReceiptPerUser (docs (db w)) ->
      Forall oneReceiptPerUser (docs (db w1)))
  /\ (Z.of_nat (readCount u (db w1))
      = Z.of_nat (readCount u (db w)) + messagesMarked r1)%Z
  /\ (forall m, m ∈ docs (db w) -> readByUser u m = true -> m ∈ docs (db w1))
  /\ (forall m, m ∈ docs (db w) -> chatRoom m = room -> readByUser u m = false ->
        ids = [] \/ _id m ∈ ids ->
        pushReadBy u t1 m ∈ docs (db w1)).
Proof.
  intros Hrun. unfold markMessagesAsRead in Hrun.
  destruct (updateManyRead room u ids t1 (db w)) as [[n d1]|] eqn:Hu;
    [|by inversion Hrun].
  apply updateManyRead_inv in Hu as (Hc & -> & ->).
  inversion Hrun; subst r1 w1; clear Hrun. simpl.
  split; [|split; [|split; [|split]]].
  - unfold markMessagesAsRead, updateManyRead. simpl. rewrite Hc.
    rewrite filter_unread_marked. simpl. eexists. split; [reflexivity|].
    simpl. apply marked_again.
  - intros Hall. apply Forall_fmap. eapply Forall_impl; [exact Hall|].
    intros m Hm. simpl. unfold marked.
    destruct (unreadQuery room u ids m) eqn:E; [|done].
    apply pushReadBy_keeps_invariant; [|done]. by apply unreadQuery_unread in E.
  - unfold readCount. simpl. rewrite readCount_marked. lia.
  - intros m Hin Hread. apply list_elem_of_fmap. exists m. split; [|done].
    unfold marked. by rewrite (unreadQuery_read room u ids m Hread).
  - intros m Hin Hroom Hunread Hsel. apply list_elem_of_fmap. exists m.
    split; [|done]. unfold marked.
    assert (unreadQuery room u ids m = true) as ->; [|done].
    unfold unreadQuery. rewrite Hunread, Hroom, String.eqb_refl. simpl.
    destruct Hsel as [->|Hsel]; [done|].
    destruct ids as [|i ids]; [done|].
    apply existsb_exists. exists (_id m). split; [|apply N.eqb_refl].
    by apply list_elem_of_In.
Qed.

Lemma markMessagesAsRead_idempotent_witness :
  let w1 := snd (markMessagesAsRead "qa_j1_u2" "bob" [] 300 Sample.world0) in
  (exists w2,
     markMessagesAsRead "qa_j1_u2" "bob" [] 400 w1
     = (Ok {| messagesMarked := 0 |}, w2)
     /\ docs (db w2) = docs (db w1))
  /\ (map read_user <$> (readBy <$> docs (db w1))) = [["bob"]].
Proof.
  intros w1. split; [|vm_compute; reflexivity].
  apply (markMessagesAsRead_idempotent "qa_j1_u2" "bob" [] 300 400
           Sample.world0 w1 {| messagesMarked := 1 |}).
  vm_compute. reflexivity.
Defined.

(** ** Cache keys *)

Section CacheKeys.
Implicit Types (s r : string).

Lemma colons_app s1 s2 : colons (s1 +:+ s2) = colons s1 + colons s2.
Proof. induction s1 as [|c s1 IH]; simpl; [done|]. rewrite IH. lia. Qed.

Lemma colons_pretty_N_char x : Ascii.eqb (pretty_N_char x) colon = false.
Proof. unfold pretty_N_char. by repeat case_match. Qed.

Lemma colons_pretty_N_go x s : colons (pretty_N_go x s) = colons s.
Proof.
  revert s. induction (N.lt_wf_0 x) as [x _ IH]; intros s.
  destruct (decide (x = 0)%N) as [->|Hx]; [by rewrite pretty_N_go_0|].
  rewrite pretty_N_go_step by lia. rewrite IH by (apply N.div_lt; lia).
  simpl. by rewrite colons_pretty_N_char.
Qed.

Lemma colons_pretty (z : Z) : colons (pretty z) = 0.
Proof.
  assert (HN : forall n : N, colons (pretty n) = 0).
  { intros n. unfold pretty, pretty_N. case_decide; [done|].
    by rewrite colons_pretty_N_go. }
  destruct z as [|p|p]; [done|..].
  - apply (HN (N.pos p)).
  - change (colons ("-" +:+ pretty (N.pos p)) = 0).
    rewrite colons_app, HN. done.
Qed.

(** A room id followed by [:page:limit] determines the room id. *)
Lemma room_of_key r r' (p l p' l' : string) :
  colons p = 0 -> colons l = 0 -> colons p' = 0 -> colons l' = 0 ->
  r +:+ ":" +:+ p +:+ ":" +:+ l = r' +:+ ":" +:+ p' +:+ ":" +:+ l' -> r = r'.
Proof.
  intros Hp Hl Hp' Hl'. revert r'.
  induction r as [|c r IH]; intros [|c' r'] Heq; simpl in Heq.
  - done.
  - injection Heq as <- Heq. apply (f_equal colons) in Heq.
    repeat (rewrite colons_app in Heq; simpl in Heq). lia.
  - injection Heq as -> Heq. apply (f_equal colons) in Heq.
    repeat (rewrite colons_app in Heq; simpl in Heq). lia.
  - injection Heq as -> Heq. f_equal. by apply IH.
Qed.

Lemma cacheKey_room room page limit room' page' limit' :
  cacheKey room page limit = cacheKey room' page' limit' -> room = room'.
Proof.
  unfold cacheKey. intros Heq. apply (inj (String.app "chat_history:")) in Heq.
  apply room_of_key in Heq; [done|apply colons_pretty..].
Qed.
End CacheKeys.

(** ** History pages *)

#[export] Instance newerFirst_trans : Transitive newerFirst.
Proof. unfold newerFirst. intros a b c. lia. Qed.

#[export] Instance newerFirst_total : Total newerFirst.
Proof. unfold newerFirst. intros a b. lia. Qed.

#[export] Instance olderFirst_trans : Transitive olderFirst.
Proof. unfold olderFirst. intros a b c. lia. Qed.

Section History.
Implicit Types (m : Message.t) (d : Collection.t) (room : string).

Lemma StronglySorted_take_drop {A : Type} (R : relation A) (n k : nat) (l : list A) :
  StronglySorted R l -> StronglySorted R (take n (drop k l)).
Proof.
  intros Hl. rewrite <- (take_drop k l) in Hl.
  apply StronglySorted_app_1_r in Hl.
  rewrite <- (take_drop n (drop k l)) in Hl.
  by apply StronglySorted_app_1_l in Hl.
Qed.

Lemma elem_of_take_drop {A : Type} (n k : nat) (l : list A) (x : A) :
  x ∈ take n (drop k l) -> x ∈ l.
Proof.
  intros H. rewrite <- (take_drop k l). apply elem_of_app. right.
  rewrite <- (take_drop n (drop k l)). apply elem_of_app. by left.
Qed.

(** The documents the history query selects, newest first. *)
Lemma newest_first_spec room d :
  let newest := merge_sort newerFirst (List.filter (inHistory room) (docs d)) in
  newest ≡ₚ List.filter (inHistory room) (docs d)
  /\ StronglySorted newerFirst newest
  /\ (forall m, m ∈ newest ->
        m ∈ docs d /\ chatRoom m = room /\ isDeleted m = false).
Proof.
  intros newest. split; [apply merge_sort_Permutation|].
  split; [apply StronglySorted_merge_sort; apply _|].
  intros m Hin. unfold newest in Hin. rewrite merge_sort_Permutation in Hin.
  apply list_elem_of_In, filter_In in Hin as [Hin Hq].
  unfold inHistory in Hq. apply andb_true_iff in Hq as [Hroom Hdel].
  split; [by apply list_elem_of_In|]. split.
  - by apply String.eqb_eq.
  - by apply negb_true_iff.
Qed.

Lemma getCache_setCache key (h : History) ttl now t st :
  getCache key t (setCache key h ttl now (Some st))
  = if bool_decide (t < now + 1000 * ttl)%Z then Some h else None.
Proof. simpl. by rewrite lookup_insert_eq. Qed.

Lemma getCache_sound room page limit t (c : RedisClient.Client History) cached :
  cacheSound c -> getCache (cacheKey room page limit) t c = Some cached ->
  Forall (fun m => chatRoom m = room /\ isDeleted m = false) (messages cached).
Proof.
  intros Hsound Hget. destruct c as [st|]; simpl in Hget; [|discriminate].
  destruct (keys st !! cacheKey room page limit) as [e|] eqn:He; [|discriminate].
  destruct (bool_decide (t < expiresAt e)%Z); [|discriminate].
  injection Hget as <-. by apply (Hsound st room page limit e).
Qed.

Lemma cacheSound_setCache room page limit (h : History) ttl now c :
  Forall (fun m => chatRoom m = room /\ isDeleted m = false) (messages h) ->
  cacheSound c -> cacheSound (setCache (cacheKey room page limit) h ttl now c).
Proof.
  intros Hh Hsound st room' page' limit' e Hst Hk.
  destruct c as [st0|]; [|discriminate]. injection Hst as <-. simpl in Hk.
  destruct (decide (cacheKey room page limit = cacheKey room' page' limit'))
    as [Heq|Hne].
  - rewrite Heq, lookup_insert_eq in Hk. injection Hk as <-.
    by rewrite <- (cacheKey_room _ _ _ _ _ _ Heq).
  - rewrite lookup_insert_ne in Hk by done.
    by apply (Hsound st0 room' page' limit' e).
Qed.

Lemma cacheSound_clearAndPublish room payload c :
  cacheSound c -> cacheSound (clearAndPublish room payload c).
Proof.
  intros Hsound st room' page' limit' e Hst Hk.
  destruct c as [st0|]; [|discriminate]. injection Hst as <-. simpl in Hk.
  apply lookup_delete_Some in Hk as [_ Hk].
  by apply (Hsound st0 room' page' limit' e).
Qed.

Lemma cacheSound_publishMessage channel payload c :
  cacheSound c -> cacheSound (publishMessage channel payload c).
Proof.
  intros Hsound st room' page' limit' e Hst Hk.
  destruct c as [st0|]; [|discriminate]. injection Hst as <-. simpl in Hk.
  by apply (Hsound st0 room' page' limit' e).
Qed.

(** The cache starts sound, and [saveMessage] and every mutation keep it
    so. *)
Lemma cacheSound_empty : cacheSound Sample.emptyCache.
Proof.
  intros st room page limit e Hst Hk. injection Hst as <-. simpl in Hk.
  by rewrite lookup_empty in Hk.
Qed.

Lemma saveMessage_keeps_cacheSound data now w :
  cacheSound (client w) -> cacheSound (client (snd (saveMessage data now w))).
Proof.
  intros Hsound. unfold saveMessage.
  destruct (create data now (db w)) as [[m d']|]; [|done].
  by apply cacheSound_publishMessage.
Qed.

Lemma runMutation_keeps_cacheSound mu now w :
  cacheSound (client w) -> cacheSound (client (snd (runMutation mu now w))).
Proof.
  intros Hsound.
  destruct (runMutation mu now w) as [[[]|err] w'] eqn:Hrun.
  - destruct mu as [id u c|id u|id u e|id u|room u ids]; simpl in Hrun.
    1-4: unfold editMessage, deleteMessage, ChatService.addReaction,
           ChatService.removeReaction in Hrun;
         open_mutation Hrun Hf Hs;
         inversion Hrun; subst w'; by apply cacheSound_clearAndPublish.
    unfold markMessagesAsRead in Hrun.
    destruct (updateManyRead room u ids now (db w)) as [[n d']|]; [|by inversion Hrun].
    inversion Hrun; subst w'. by apply (cacheSound_clearAndPublish room).
  - assert (w' = w) as ->; [|done].
    destruct mu as [id u c|id u|id u e|id u|room u ids]; simpl in Hrun.
    1-4: unfold editMessage, deleteMessage, ChatService.addReaction,
           ChatService.removeReaction in Hrun;
         destruct (findById id (db w)) as [[m|]|]; [|by inversion Hrun..];
         try (destruct (negb (String.eqb (sender m) u)); [by inversion Hrun|]);
         destruct (save _ now (db w)) as [[m' d']|]; by inversion Hrun.
    unfold markMessagesAsRead in Hrun.
    destruct (updateManyRead room u ids now (db w)) as [[n d']|]; by inversion Hrun.
Qed.
End History.

(** C5. For a page and a page size of at least 1: on a cache hit
    [getChatHistory] returns the cached result and changes nothing; on a
    miss with the store in reach it returns the page of the messages of the
    room that are not flagged deleted, taken newest first and handed out
    oldest first, and stores that result under the key of (room, page, page
    size), where it is found for the next 300 seconds and no longer.  A
    cache filled by [getChatHistory] alone hands out, on a hit too, only
    messages of the room that were not flagged deleted when cached. *)
Theorem getChatHistory_page (room : string) (page limit now : Z) (w : World) :
  (1 <= page)%Z -> (1 <= limit)%Z ->
  match getCache (cacheKey room page limit) now (client w) with
  | Some cached =>
      getChatHistory room page limit now w = (Ok cached, w)
      /\ (cacheSound (client w) ->
          Forall (fun m => chatRoom m = room /\ isDeleted m = false)
            (messages cached))
  | None =>
      connected (db w) = true ->
      exists h newest,
        getChatHistory room page limit now w
        = (Ok h, {| db := db w;
                    client := setCache (cacheKey room page limit) h 300 now
                                (client w) |})
        /\ newest ≡ₚ List.filter (inHistory room) (docs (db w))
        /\ StronglySorted newerFirst newest
        /\ reverse (messages h)
           = take (Z.to_nat limit) (drop (Z.to_nat ((page - 1) * limit)) newest)
        /\ StronglySorted olderFirst (messages h)
        /\ (forall m, m ∈ messages h ->
              m ∈ docs (db w) /\ chatRoom m = room /\ isDeleted m = false)
        /\ (forall st t, client w = Some st ->
              ((now <= t < now + 300000)%Z ->
               getCache (cacheKey room page limit) t
                 (setCache (cacheKey room page limit) h 300 now (client w))
               = Some h)
              /\ ((now + 300000 <= t)%Z ->
                  getCache (cacheKey room page limit) t
                    (setCache (cacheKey room page limit) h 300 now (client w))
                  = None))
        /\ (cacheSound (client w) ->
            cacheSound (setCache (cacheKey room page limit) h 300 now (client w)))
  end.
Proof.
  intros Hpage Hlimit.
  destruct (getCache (cacheKey room page limit) now (client w)) as [cached|] eqn:Hc.
  - split; [unfold getChatHistory; by rewrite Hc|].
    intros Hsound. by apply (getCache_sound _ _ _ _ _ _ Hsound Hc).
  - intros Hconn. unfold getChatHistory. rewrite Hc.
    unfold findHistory, countDocuments. rewrite Hconn.
    destruct (newest_first_spec room (db w)) as (Hperm & Hsorted & Hmem).
    set (newest := merge_sort newerFirst (List.filter (inHistory room) (docs (db w)))) in *.
    set (found := take (Z.to_nat limit) (drop (Z.to_nat ((page - 1) * limit)) newest)).
    eexists _, newest. split; [reflexivity|]. simpl.
    split; [done|]. split; [done|].
    split; [by rewrite reverse_involutive|].
    assert (Hflags : forall m, m ∈ reverse found ->
              m ∈ docs (db w) /\ chatRoom m = room /\ isDeleted m = false).
    { intros m Hin. rewrite elem_of_reverse in Hin.
      apply Hmem. by apply elem_of_take_drop in Hin. }
    split; [|split; [exact Hflags|split]].
    + apply Sorted_StronglySorted; [apply _|].
      apply (Sorted_reverse newerFirst).
      apply StronglySorted_Sorted. by apply StronglySorted_take_drop.
    + intros st t Hst. rewrite Hst, !getCache_setCache. split; intros Ht.
      * rewrite bool_decide_eq_true_2; [done | lia].
      * rewrite bool_decide_eq_false_2; [done | lia].
    + apply cacheSound_setCache. apply Forall_forall. intros m Hin.
      by apply Hflags.
Qed.

Lemma getChatHistory_page_witness :
  exists h,
    fst (getChatHistory "qa_j1_u2" 1 20 200 Sample.world0) = Ok h
    /\ messages h = [Sample.hello]
    /\ getCache (cacheKey "qa_j1_u2" 1 20) 300000
         (client (snd (getChatHistory "qa_j1_u2" 1 20 200 Sample.world0)))
       = Some h.
Proof.
  pose proof (getChatHistory_page "qa_j1_u2" 1 20 200 Sample.world0) as H.
  specialize (H ltac:(lia) ltac:(lia)). simpl in H.
  destruct (H eq_refl) as (h & newest & Hrun & _ & _ & _ & _ & _ & Httl & _).
  exists h. rewrite Hrun. simpl. split; [done|]. split.
  - apply (f_equal fst) in Hrun. vm_compute in Hrun. by injection Hrun as <-.
  - apply (Httl _ 300000%Z eq_refl). lia.
Defined.

(** * Further theorems *)

Import ChatRooms Presence Props2.

(** ** Room ids *)

Section RoomIds.
Implicit Types (s p r : string).

Lemma prefix_app p s : String.prefix p (p +:+ s) = true.
Proof.
  induction p as [|c p IH]; simpl; [by destruct s|].
  destruct (Ascii.ascii_dec c c); [done | congruence].
Qed.

Lemma prefix_split p s : String.prefix p s = true -> exists rest, s = p +:+ rest.
Proof.
  revert s. induction p as [|c p IH]; intros s; simpl.
  - intros _. by exists s.
  - destruct s as [|c' s]; simpl; [discriminate|].
    destruct (Ascii.ascii_dec c c') as [E|E]; [|discriminate].
    subst c'. intros H. destruct (IH s H) as [rest ->]. by exists rest.
Qed.

Lemma length_app s1 s2 :
  String.length (s1 +:+ s2) = String.length s1 + String.length s2.
Proof. induction s1 as [|c s1 IH]; simpl; [done|]. by rewrite IH. Qed.

Lemma replace_prefix p s : p <> "" -> replace p "" (p +:+ s) = s.
Proof.
  intros Hp.
  assert (Hdrop : forall q, dropChars (String.length q) (q +:+ s) = s).
  { intros q. induction q as [|c q IH]; simpl; [by destruct s | done]. }
  destruct p as [|c p]; [done|].
  change (replace (String c p) "" (String c p +:+ s))
    with (if String.prefix (String c p) (String c p +:+ s)
          then "" +:+ dropChars (String.length (String c p)) (String c p +:+ s)
          else String c (replace (String c p) "" (p +:+ s))).
  rewrite prefix_app. simpl. apply (Hdrop p).
Qed.
End RoomIds.

Section RoomIdParts.
Implicit Types (s a b : string).

Lemma underscores_app a b : underscores (a +:+ b) = underscores a + underscores b.
Proof. induction a as [|c a IH]; simpl; [done|]. rewrite IH. lia. Qed.

Lemma split_plain s : underscores s = 0 -> split underscore s = [s].
Proof.
  induction s as [|c s IH]; simpl; [done|].
  destruct (Ascii.eqb c underscore); [discriminate|].
  intros H. by rewrite (IH H).
Qed.

Lemma split_first a b :
  underscores a = 0 ->
  split underscore (a +:+ "_" +:+ b) = a :: split underscore b.
Proof.
  induction a as [|c a IH]; simpl; [done|].
  destruct (Ascii.eqb c underscore); [discriminate|].
  intros H. by rewrite (IH H).
Qed.

End RoomIdParts.

(** X1. A room id that the gateway classes as [group_planning] is
    [journey_] followed by the journey id the gateway extracts from it. *)
Theorem extractJourneyId_roundtrip (roomId : string) :
  determineChatType roomId = "group_planning" ->
  "journey_" +:+ extractJourneyId roomId = roomId.
Proof.
  unfold determineChatType, startsWith, extractJourneyId. intros H.
  destruct (String.prefix "journey_" roomId) eqn:Hp.
  - apply prefix_split in Hp as [rest ->]. by rewrite replace_prefix.
  - destruct (String.prefix "location_" roomId); [discriminate|].
    destruct (String.prefix "qa_" roomId); discriminate.
Qed.

Lemma extractJourneyId_roundtrip_witness :
  "journey_" +:+ extractJourneyId "journey_abc123" = "journey_abc123".
Proof. apply extractJourneyId_roundtrip. reflexivity. Defined.

(** X2. The room id [createLocationChat] builds from two coordinate texts
    without ['_'] is classed as [location_chat], and the gateway reads the
    same two texts back from it, in their order; the name of the location
    is not part of what it reads. *)
Theorem location_room_roundtrip (name lat lon : string) :
  underscores lat = 0 -> underscores lon = 0 ->
  let room := location_chatRoom (createLocationChat name lat lon) in
  determineChatType room = "location_chat"
  /\ extractLocationData room
     = {| loc_name := None; latitude := Some lat; longitude := Some lon |}.
Proof.
  intros Hlat Hlon room. unfold room, createLocationChat. simpl location_chatRoom.
  split.
  - unfold determineChatType, startsWith.
    replace (String.prefix "journey_" ("location_" +:+ lat +:+ "_" +:+ lon))
      with false by reflexivity.
    by rewrite prefix_app.
  - unfold extractLocationData. rewrite replace_prefix by discriminate.
    rewrite split_first by done. by rewrite split_plain.
Qed.

Lemma location_room_roundtrip_witness :
  extractLocationData (location_chatRoom (createLocationChat "Kyoto" "35.01" "135.77"))
  = {| loc_name := None; latitude := Some "35.01"; longitude := Some "135.77" |}.
Proof.
  apply (location_room_roundtrip "Kyoto" "35.01" "135.77"); reflexivity.
Defined.



(** ** Saving messages *)

Section Saving.
Implicit Types (d : MessageData) (c : Collection.t) (w : World).

(** The document [create] stores. *)
Lemma create_inv d now c m c' :
  create d now c = Ok (m, c') ->
  m = set_stamps (nextId c) now now (newMessage d (nextId c))
  /\ validate m = true
  /\ connected c = true
  /\ c' = {| docs := docs c ++ [m]; nextId := N.succ (nextId c);
             connected := connected c |}.
Proof.
  unfold create. destruct (validate _) eqn:Hv; simpl; [|discriminate].
  destruct (connected c) eqn:Hc; simpl; [|discriminate].
  intros Heq. inversion Heq; subst. by rewrite Hv.
Qed.

Lemma create_ok d now c :
  validate (set_stamps (nextId c) now now (newMessage d (nextId c))) = true ->
  connected c = true ->
  create d now c
  = Ok (set_stamps (nextId c) now now (newMessage d (nextId c)),
        {| docs := docs c ++ [set_stamps (nextId c) now now (newMessage d (nextId c))];
           nextId := N.succ (nextId c); connected := connected c |}).
Proof. intros Hv Hc. unfold create. by rewrite Hv, Hc. Qed.

Lemma validate_new d now id :
  validate (set_stamps id now now (newMessage d id))
  = negb (String.eqb (data_content d) "")
    && Nat.leb (String.length (data_content d)) 1000
    && bool_decide (data_messageType d ∈ ["text"; "image"; "file"; "location"; "system"])
    && bool_decide (data_chatType d ∈ ["group_planning"; "location_chat"; "qa_chat"; "direct"]).
Proof. unfold validate. simpl. by rewrite andb_true_r. Qed.


Lemma length_rev_app s1 s2 :
  String.length (String.rev_app s1 s2) = String.length s1 + String.length s2.
Proof.
  revert s2. induction s1 as [|a s1 IH]; intros s2; simpl; [done|].
  rewrite IH. simpl. lia.
Qed.

Lemma length_trimStart s : String.length (trimStart s) <= String.length s.
Proof.
  induction s as [|a s IH]; simpl; [done|].
  destruct (isWhiteSpace a); simpl; lia.
Qed.

(** Trimming never makes a string longer. *)
Lemma length_trim s : String.length (trim s) <= String.length s.
Proof.
  unfold trim, trimEnd, String.rev. rewrite length_rev_app. simpl.
  pose proof (length_trimStart (String.rev_app (trimStart s) "")) as H.
  rewrite length_rev_app in H. simpl in H.
  pose proof (length_trimStart s). lia.
Qed.
End Saving.

(** X4. Only the creator of an existing journey gets a planning chat; for
    a title within the 100 characters of the journey schema and a store in
    reach the call then succeeds: it appends one [system] welcome message
    of the creator to the room [journey_<id>], which carries the journey id
    and from which the gateway reads that id back.  A caller who is not the
    creator is refused and nothing is stored. *)
Theorem createGroupPlanningChat_welcome (journeyId creatorId : string) (now : Z)
    (journeys : gmap string Journey.t) (w : World) (j : Journey.t) :
  journeys !! journeyId = Some j ->
  String.length (Journey.title j) <= 100 ->
  connected (db w) = true ->
  if String.eqb (Journey.creator j) creatorId
  then exists chat w',
      createGroupPlanningChat journeyId creatorId now journeys w = (Ok chat, w')
      /\ group_chatRoom chat = "journey_" +:+ journeyId
      /\ determineChatType (group_chatRoom chat) = "group_planning"
      /\ extractJourneyId (group_chatRoom chat) = journeyId
      /\ docs (db w') = (docs (db w) ++ [welcomeMessage chat])%list
      /\ sender (welcomeMessage chat) = creatorId
      /\ content (welcomeMessage chat) = welcome (Journey.title j)
      /\ messageType (welcomeMessage chat) = "system"
      /\ chatRoom (welcomeMessage chat) = "journey_" +:+ journeyId
      /\ Message.journeyId (welcomeMessage chat) = Some journeyId
  else createGroupPlanningChat journeyId creatorId now journeys w
       = (Throw (Err "Only journey creator can create group chat"), w).
Proof.
  intros Hj Htitle Hc. unfold createGroupPlanningChat, findJourney.
  rewrite Hc, Hj.
  destruct (String.eqb (Journey.creator j) creatorId); simpl; [|done].
  unfold saveMessage. rewrite create_ok; [| |done].
  - eexists _, _. split; [reflexivity|]. simpl.
    split; [done|]. split.
    { unfold determineChatType, startsWith. by rewrite prefix_app. }
    split; [by apply replace_prefix|]. done.
  - rewrite validate_new. cbn [data_content data_messageType data_chatType].
    rewrite !andb_true_iff. split; [split; [split|]|].
    + reflexivity.
    + apply Nat.leb_le. unfold welcome. rewrite !length_app. simpl. lia.
    + apply bool_decide_eq_true_2. set_solver.
    + apply bool_decide_eq_true_2. set_solver.
Qed.

Lemma createGroupPlanningChat_welcome_witness :
  exists chat w',
    createGroupPlanningChat "j1" "alice" 300 Sample2.journeys Sample.world0
    = (Ok chat, w')
    /\ group_chatRoom chat = "journey_j1"
    /\ extractJourneyId (group_chatRoom chat) = "j1".
Proof.
  pose proof (createGroupPlanningChat_welcome "j1" "alice" 300 Sample2.journeys
                Sample.world0 Sample2.trip eq_refl) as H.
  simpl in H. destruct H as (chat & w' & Hrun & Hroom & _ & Hid & _);
    [lia | reflexivity |].
  exists chat, w'. split; [exact Hrun|]. split; [exact Hroom | exact Hid].
Defined.

(** ** Outcomes of the service calls *)

Section Outcomes.
Implicit Types (c : Collection.t) (w : World) (m : Message.t).

Lemma find_absent id ds :
  Forall (fun x => (_id x < id)%N) ds ->
  List.find (fun x => N.eqb (_id x) id) ds = None.
Proof.
  induction 1 as [|x ds Hx _ IH]; simpl; [done|].
  destruct (N.eqb_spec (_id x) id); [lia | done].
Qed.

Lemma find_app_absent id ds m :
  List.find (fun x => N.eqb (_id x) id) ds = None -> _id m = id ->
  List.find (fun x => N.eqb (_id x) id) (ds ++ [m]) = Some m.
Proof.
  intros Hnone Hid. induction ds as [|x ds IH]; simpl in *.
  - by rewrite Hid, N.eqb_refl.
  - destruct (N.eqb (_id x) id); [discriminate | auto].
Qed.

Lemma getCache_same_keys key t (c1 c2 : RedisClient.Client History) :
  (keys <$> c1) = (keys <$> c2) -> getCache key t c1 = getCache key t c2.
Proof.
  destruct c1 as [s1|], c2 as [s2|]; simpl; try done.
  intros H. injection H as ->. done.
Qed.

(** A history read that misses the cache hands out documents of the
    store only, of the room asked for and not flagged deleted. *)
Lemma getChatHistory_miss room page limit now w h w' :
  getCache (cacheKey room page limit) now (client w) = None ->
  getChatHistory room page limit now w = (Ok h, w') ->
  db w' = db w
  /\ reverse (messages h)
     = take (Z.to_nat limit)
         (drop (Z.to_nat ((page - 1) * limit))
            (merge_sort newerFirst (eligible room w)))
  /\ totalMessages (pagination h) = Z.of_nat (length (eligible room w))
  /\ forall x, x ∈ messages h ->
       x ∈ docs (db w) /\ chatRoom x = room /\ isDeleted x = false.
Proof.
  intros Hmiss Hrun. unfold getChatHistory in Hrun. rewrite Hmiss in Hrun.
  unfold findHistory, countDocuments in Hrun.
  destruct (connected (db w)); [|discriminate].
  inversion Hrun; subst h w'; clear Hrun. simpl.
  split; [done|]. split; [by rewrite reverse_involutive|]. split; [done|].
  intros x Hx. rewrite elem_of_reverse in Hx. apply elem_of_take_drop in Hx.
  by apply (newest_first_spec room (db w)).
Qed.
End Outcomes.

(** X5. A successful [saveMessage] appends exactly one document, with
    the next id of the collection, no receipt, no reaction and no deletion
    flag, and that id finds it again; it leaves every cache entry as it
    was, so a cached history page does not show the new message; and the
    [new_message] event it publishes is one the relay ignores. *)
Theorem saveMessage_appends (d : MessageData) (now : Z) (w w' : World)
    (m : Message.t) :
  saveMessage d now w = (Ok m, w') ->
  docs (db w') = (docs (db w) ++ [m])%list
  /\ _id m = nextId (db w)
  /\ createdAt m = now /\ isDeleted m = false /\ readBy m = [] /\ reactions m = []
  /\ content m = data_content d /\ chatRoom m = data_chatRoom d
  /\ (Forall (fun x => (_id x < nextId (db w))%N) (docs (db w)) ->
      findById (_id m) (db w') = Ok (Some m))
  /\ (forall key t, getCache key t (client w') = getCache key t (client w))
  /\ (forall room page limit t cached,
        getCache (cacheKey room page limit) t (client w) = Some cached ->
        getChatHistory room page limit t w' = (Ok cached, w'))
  /\ (client w <> None ->
      exists payload, lastPublished w' = Some payload
                      /\ handleRedisMessage payload = Ok []).
Proof.
  intros Hrun. unfold saveMessage in Hrun.
  destruct (create d now (db w)) as [[m0 d']|] eqn:Hc; [|by inversion Hrun].
  apply create_inv in Hc as (Hm & _ & Hconn & ->).
  injection Hrun as Hm0 Hw. subst m0 w' m. simpl.
  set (m := set_stamps (nextId (db w)) now now (newMessage d (nextId (db w)))).
  assert (Hcache : forall key t,
            getCache key t (publishMessage ("chat:" +:+ data_chatRoom d)
              (JObj [("type", JStr "new_message"); ("message", toJSON m)]) (client w))
            = getCache key t (client w)) by (intros; apply getCache_publishMessage).
  repeat (split; [done|]). split; [|split; [exact Hcache|split]].
  - intros Hbelow. unfold findById. simpl. rewrite Hconn. f_equal.
    apply find_app_absent; [|done]. by apply find_absent.
  - intros room page limit t cached Hhit. unfold getChatHistory. simpl.
    by rewrite Hcache, Hhit.
  - intros Hcl. destruct (client w) as [st|]; [|done].
    eexists. unfold lastPublished. simpl. rewrite last_snoc. simpl.
    split; reflexivity.
Qed.

Lemma saveMessage_appends_witness :
  exists m w',
    saveMessage (ChatSocket.messageData Sample.alice Sample.greeting) 300
      Sample.worldCached = (Ok m, w')
    /\ _id m = 8%N
    /\ findById 8 (db w') = Ok (Some m)
    /\ exists cached,
         getChatHistory "qa_j1_u2" 1 20 400 w' = (Ok cached, w')
         /\ messages cached = [Sample.hello].
Proof.
  destruct (saveMessage (ChatSocket.messageData Sample.alice Sample.greeting) 300
              Sample.worldCached) as [[m|e] w'] eqn:Hrun;
    [|apply (f_equal fst) in Hrun; vm_compute in Hrun; discriminate].
  exists m, w'. split; [done|].
  destruct (saveMessage_appends _ _ _ _ _ Hrun)
    as (_ & Hid & _ & _ & _ & _ & _ & _ & Hfind & _ & Hstale & _).
  split; [exact Hid|]. split.
  - rewrite <- (Hid : _id m = 8%N). apply Hfind. repeat constructor.
  - eexists. split; [apply Hstale; vm_compute; reflexivity|]. reflexivity.
Defined.

Lemma mutation_throw_same (mu : Mutation) (now : Z) (w w' : World) (e : Error) :
  runMutation mu now w = (Throw e, w') -> w' = w.
Proof.
  intros Hrun.
  destruct mu as [id u c|id u|id u em|id u|room u ids]; simpl in Hrun.
  1-4: unfold editMessage, deleteMessage, ChatService.addReaction,
         ChatService.removeReaction in Hrun;
       destruct (findById id (db w)) as [[m|]|]; [|by inversion Hrun..];
       try (destruct (negb (String.eqb (sender m) u)); [by inversion Hrun|]);
       destruct (save _ now (db w)) as [[m' d']|]; by inversion Hrun.
  unfold markMessagesAsRead in Hrun.
  destruct (updateManyRead room u ids now (db w)) as [[n d']|]; by inversion Hrun.
Qed.

(** X6. A mutation that throws leaves the store, the cache and the
    published events exactly as they were. *)
Theorem failed_mutation_changes_nothing (mu : Mutation) (now : Z) (w w' : World)
    (e : Error) :
  runMutation mu now w = (Throw e, w') -> w' = w.
Proof. apply mutation_throw_same. Qed.

Lemma failed_mutation_changes_nothing_witness :
  snd (runMutation (Edit 7 "bob" "mine now") 300 Sample.world0) = Sample.world0.
Proof.
  apply (failed_mutation_changes_nothing (Edit 7 "bob" "mine now") 300
           Sample.world0 _ (Err "Can only edit your own messages")).
  reflexivity.
Defined.

(** X7. With the store in reach, the four mutations of one message throw
    [Message not found] for an id that no document has; for a message of
    another sender, [editMessage] and [deleteMessage] throw their ownership
    error whatever the new content is, while a reaction is open to every
    user. *)
Theorem message_mutation_refusals (id : N) (user : string) (now : Z) (w : World) :
  connected (db w) = true ->
  match List.find (fun m => N.eqb (_id m) id) (docs (db w)) with
  | None =>
      (forall c, editMessage id user c now w = (Throw (Err "Message not found"), w))
      /\ deleteMessage id user now w = (Throw (Err "Message not found"), w)
      /\ (forall em, ChatService.addReaction id user em now w
                     = (Throw (Err "Message not found"), w))
      /\ ChatService.removeReaction id user now w
         = (Throw (Err "Message not found"), w)
  | Some m =>
      (sender m <> user ->
       (forall c, editMessage id user c now w
                  = (Throw (Err "Can only edit your own messages"), w))
       /\ deleteMessage id user now w
          = (Throw (Err "Can only delete your own messages"), w))
      /\ (validate m = true ->
          forall em, exists ack w',
            ChatService.addReaction id user em now w = (Ok ack, w'))
  end.
Proof.
  intros Hc.
  destruct (List.find _ (docs (db w))) as [m|] eqn:Hf.
  - split.
    + intros Hne. apply String.eqb_neq in Hne.
      unfold editMessage, deleteMessage, findById. rewrite Hc, Hf, Hne. done.
    + intros Hv em. unfold ChatService.addReaction, findById, save.
      rewrite Hc, Hf.
      replace (validate (touch now (Message.addReaction user em now m))) with true.
      * simpl. by eexists _, _.
      * rewrite <- Hv. unfold Message.addReaction.
        by destruct (existingReaction user (reactions m)).
  - unfold editMessage, deleteMessage, ChatService.addReaction,
      ChatService.removeReaction, findById. rewrite Hc, Hf. done.
Qed.

Lemma message_mutation_refusals_witness :
  editMessage 7 "bob" "mine now" 300 Sample.world0
  = (Throw (Err "Can only edit your own messages"), Sample.world0)
  /\ deleteMessage 9 "alice" 300 Sample.world0
     = (Throw (Err "Message not found"), Sample.world0).
Proof.
  split.
  - pose proof (message_mutation_refusals 7 "bob" 300 Sample.world0 eq_refl) as H.
    simpl in H. destruct H as [H _]. by apply H.
  - pose proof (message_mutation_refusals 9 "alice" 300 Sample.world0 eq_refl) as H.
    simpl in H. by destruct H as (_ & H & _).
Defined.

(** X8. After a successful [deleteMessage] every document with that id is
    flagged deleted and holds the tombstone text in place of its content,
    the caller was its sender, and a history read that misses the cache
    does not hand out a message with that id, whatever room, page and page
    size are asked for. *)
Theorem deleteMessage_hides (id : N) (user : string) (now : Z) (w w' : World)
    (ack : Ack) :
  deleteMessage id user now w = (Ok ack, w') ->
  (exists m, findById id (db w) = Ok (Some m) /\ sender m = user)
  /\ (forall m', m' ∈ docs (db w') -> _id m' = id ->
        isDeleted m' = true /\ content m' = tombstone /\ deletedAt m' = Some now)
  /\ (forall room page limit t h w'',
        getCache (cacheKey room page limit) t (client w') = None ->
        getChatHistory room page limit t w' = (Ok h, w'') ->
        forall x, x ∈ messages h -> _id x <> id).
Proof.
  intros Hrun. unfold deleteMessage in Hrun.
  destruct (findById id (db w)) as [[m|]|] eqn:Hf; [|by inversion Hrun..].
  destruct (String.eqb_spec (sender m) user) as [Hu|Hu]; simpl in Hrun;
    [|by inversion Hrun].
  destruct (save _ now (db w)) as [[m1 d']|] eqn:Hs; [|by inversion Hrun].
  apply save_inv in Hs as (Hm1 & _ & _ & ->).
  injection Hrun as _ <-.
  assert (Hid : _id m = id) by (apply findById_find in Hf; by apply find_id in Hf).
  assert (Hall : forall m', m' ∈ replaceDoc m1 (docs (db w)) -> _id m' = id ->
            isDeleted m' = true /\ content m' = tombstone /\ deletedAt m' = Some now).
  { intros m' Hin Hid'. unfold replaceDoc in Hin.
    apply list_elem_of_fmap in Hin as (x & -> & _).
    destruct (N.eqb_spec (_id x) (_id m1)) as [E|E].
    - by rewrite Hm1.
    - exfalso. apply E. rewrite Hm1. simpl in *. congruence. }
  split; [by exists m|]. split; [exact Hall|].
  intros room page limit t h w'' Hmiss Hread x Hx Hxid.
  destruct (getChatHistory_miss _ _ _ _ _ _ _ Hmiss Hread) as (_ & _ & _ & Hmem).
  destruct (Hmem x Hx) as (Hin & _ & Hdel).
  destruct (Hall x Hin Hxid) as [Hdel' _]. congruence.
Qed.

Lemma deleteMessage_hides_witness :
  let w' := snd (deleteMessage 7 "alice" 300 Sample.world0) in
  exists h, fst (getChatHistory "qa_j1_u2" 1 20 400 w') = Ok h /\ messages h = [].
Proof.
  intros w'.
  destruct (deleteMessage_hides 7 "alice" 300 Sample.world0 w'
              {| ack_message := "Message deleted successfully" |})
    as (_ & _ & Hhist); [vm_compute; reflexivity|].
  destruct (getChatHistory "qa_j1_u2" 1 20 400 w') as [[h|e] w''] eqn:Hread;
    [|apply (f_equal fst) in Hread; vm_compute in Hread; discriminate].
  exists h. split; [done|].
  specialize (Hhist "qa_j1_u2" 1%Z 20%Z 400%Z h w'' eq_refl Hread).
  apply (f_equal fst) in Hread. vm_compute in Hread. by injection Hread as <-.
Defined.

(** ** Invariants of the collection *)

Section StoreInvariants.
Implicit Types (c : Collection.t) (w : World) (m x : Message.t).

Lemma same_id_same_doc (ds : list Message.t) x y :
  NoDup (map _id ds) -> x ∈ ds -> y ∈ ds -> _id x = _id y -> x = y.
Proof.
  induction ds as [|z ds IH]; simpl; intros Hnd Hx Hy Hid.
  - by apply elem_of_nil in Hx.
  - apply NoDup_cons in Hnd as [Hz Hnd].
    apply elem_of_cons in Hx as [->|Hx]; apply elem_of_cons in Hy as [->|Hy].
    + done.
    + exfalso. apply Hz. rewrite Hid. by apply list_elem_of_fmap_2.
    + exfalso. apply Hz. rewrite <- Hid. by apply list_elem_of_fmap_2.
    + by apply IH.
Qed.

Lemma ids_replaceDoc m' ds : map _id (replaceDoc m' ds) = map _id ds.
Proof.
  unfold replaceDoc. induction ds as [|x ds IH]; simpl; [done|].
  rewrite IH. f_equal. destruct (N.eqb_spec (_id x) (_id m')); congruence.
Qed.

Lemma validate_touch now m : validate (touch now m) = validate m.
Proof. reflexivity. Qed.

Lemma validate_marked room u ids now m :
  validate (marked room u ids now m) = validate m.
Proof. unfold marked. by destruct (unreadQuery room u ids m). Qed.

Lemma find_elem id (ds : list Message.t) m :
  List.find (fun x => N.eqb (_id x) id) ds = Some m -> m ∈ ds.
Proof. intros H. apply find_some in H as [H _]. by apply list_elem_of_In. Qed.

Lemma storeOk_create d now c m c' :
  create d now c = Ok (m, c') -> storeOk c -> storeOk c'.
Proof.
  intros Hc (Hnd & Hbelow & Hvalid).
  apply create_inv in Hc as (Hm & Hv & _ & ->).
  assert (Hid : _id m = nextId c) by by rewrite Hm.
  unfold storeOk. simpl. split; [|split].
  - rewrite map_app. simpl. apply NoDup_app. split; [done|].
    split; [|apply NoDup_singleton].
    intros i Hi Hi'. apply list_elem_of_singleton in Hi'. subst i.
    apply list_elem_of_fmap in Hi as (x & Hx & Hin).
    rewrite Forall_forall in Hbelow. specialize (Hbelow x Hin). lia.
  - apply Forall_app. split.
    + eapply Forall_impl; [exact Hbelow|]. simpl. intros x Hx. lia.
    + apply Forall_singleton. lia.
  - apply Forall_app. split; [done|]. by apply Forall_singleton.
Qed.

Lemma storeOk_save e now c m' c' :
  save e now c = Ok (m', c') -> storeOk c -> storeOk c'.
Proof.
  intros Hs (Hnd & Hbelow & Hvalid).
  apply save_inv in Hs as (Hm' & Hv & _ & ->).
  unfold storeOk. simpl. split; [|split].
  - by rewrite ids_replaceDoc.
  - unfold replaceDoc. apply Forall_fmap.
    eapply Forall_impl; [exact Hbelow|]. simpl. intros x Hx.
    destruct (N.eqb_spec (_id x) (_id m')); [lia | done].
  - unfold replaceDoc. apply Forall_fmap.
    eapply Forall_impl; [exact Hvalid|]. simpl. intros x Hx.
    by destruct (N.eqb (_id x) (_id m')).
Qed.

Lemma storeOk_updateManyRead room u ids now c n c' :
  updateManyRead room u ids now c = Ok (n, c') -> storeOk c -> storeOk c'.
Proof.
  intros Hu (Hnd & Hbelow & Hvalid).
  apply updateManyRead_inv in Hu as (_ & _ & ->).
  assert (Hid : forall x, _id (marked room u ids now x) = _id x).
  { intros x. unfold marked. by destruct (unreadQuery room u ids x). }
  unfold storeOk. simpl. split; [|split].
  - assert (Hids : forall ds, map _id (map (marked room u ids now) ds) = map _id ds).
    { intros ds. induction ds as [|x ds IH]; simpl; [done|]. by rewrite Hid, IH. }
    by rewrite Hids.
  - apply Forall_fmap. eapply Forall_impl; [exact Hbelow|]. simpl.
    intros x Hx. by rewrite Hid.
  - apply Forall_fmap. eapply Forall_impl; [exact Hvalid|]. simpl.
    intros x Hx. by rewrite validate_marked.
Qed.

Lemma keeps_refl m : keeps m m.
Proof. by unfold keeps. Qed.

Lemma keeps_trans m1 m2 m3 : keeps m1 m2 -> keeps m2 m3 -> keeps m1 m3.
Proof.
  unfold keeps. intros (?&?&?&?&?&?) (?&?&?&?&?&?).
  repeat split; try congruence. auto.
Qed.

Lemma keeps_save e now c m m' c' :
  save e now c = Ok (m', c') ->
  List.find (fun x => N.eqb (_id x) (_id e)) (docs c) = Some m ->
  keeps m e -> NoDup (map _id (docs c)) ->
  forall x, x ∈ docs c -> exists x', x' ∈ docs c' /\ keeps x x'.
Proof.
  intros Hs Hf Hk Hnd x Hx. apply save_inv in Hs as (Hm' & _ & _ & ->). simpl.
  exists (if N.eqb (_id x) (_id m') then m' else x). split.
  - unfold replaceDoc.
    by apply (list_elem_of_fmap_2
                (fun y => if N.eqb (_id y) (_id m') then m' else y) (docs c) x).
  - destruct (N.eqb_spec (_id x) (_id m')) as [E|E]; [|apply keeps_refl].
    assert (x = m) as ->.
    { apply (same_id_same_doc (docs c)); [done | done | by apply find_elem in Hf|].
      rewrite E, Hm'. simpl. by destruct Hk as [-> _]. }
    by rewrite Hm'.
Qed.
End StoreInvariants.

Section CallInvariants.
Implicit Types (w : World) (x : Message.t).

Lemma getChatHistory_db room page limit now w :
  db (snd (getChatHistory room page limit now w)) = db w.
Proof.
  unfold getChatHistory.
  destruct (getCache _ now (client w)); [done|].
  destruct (findHistory _ _ _ (db w)); [|done].
  by destruct (countDocuments room (db w)).
Qed.

Lemma keeps_addReaction u e now m : keeps m (Message.addReaction u e now m).
Proof.
  unfold Message.addReaction.
  destruct (existingReaction u (reactions m)); unfold keeps; simpl; by repeat split.
Qed.

Lemma keeps_applyEdit newContent now m : keeps m (applyEdit newContent now m).
Proof.
  unfold applyEdit.
  destruct (truthy (originalContent m)); unfold keeps; simpl; by repeat split.
Qed.

Lemma keeps_marked room u ids now m : keeps m (marked room u ids now m).
Proof.
  unfold marked.
  destruct (unreadQuery room u ids m); unfold keeps; simpl; by repeat split.
Qed.

Lemma runCall_storeOk w call : storeOk (db w) -> storeOk (db (runCall w call)).
Proof.
  intros Hok. destruct call as [[d|room page limit|mu] now]; simpl.
  - unfold saveMessage. destruct (create d now (db w)) as [[m d']|] eqn:Hc; [|done].
    simpl. by apply (storeOk_create _ _ _ _ _ Hc).
  - by rewrite getChatHistory_db.
  - destruct (runMutation mu now w) as [[[]|err] w'] eqn:Hrun; simpl.
    + destruct mu as [id u c|id u|id u e|id u|room u ids]; simpl in Hrun.
      1-4: unfold editMessage, deleteMessage, ChatService.addReaction,
             ChatService.removeReaction in Hrun;
           open_mutation Hrun Hf Hs;
           inversion Hrun; subst w'; by apply (storeOk_save _ _ _ _ _ Hs).
      unfold markMessagesAsRead in Hrun.
      destruct (updateManyRead room u ids now (db w)) as [[n d']|] eqn:Hu;
        [|by inversion Hrun].
      inversion Hrun; subst w'. by apply (storeOk_updateManyRead _ _ _ _ _ _ _ Hu).
    + by rewrite (mutation_throw_same _ _ _ _ _ Hrun).
Qed.

Lemma runCall_keeps w call x :
  storeOk (db w) -> x ∈ docs (db w) ->
  exists x', x' ∈ docs (db (runCall w call)) /\ keeps x x'.
Proof.
  intros (Hnd & _) Hx. destruct call as [[d|room page limit|mu] now]; simpl.
  - unfold saveMessage. destruct (create d now (db w)) as [[m d']|] eqn:Hc;
      [|exists x; split; [done | apply keeps_refl]].
    apply create_inv in Hc as (_ & _ & _ & ->). simpl.
    exists x. split; [apply elem_of_app; by left | apply keeps_refl].
  - rewrite getChatHistory_db. exists x. split; [done | apply keeps_refl].
  - destruct (runMutation mu now w) as [[[]|err] w'] eqn:Hrun; simpl.
    + destruct mu as [id u c|id u|id u e|id u|room u ids]; simpl in Hrun.
      1-4: unfold editMessage, deleteMessage, ChatService.addReaction,
             ChatService.removeReaction in Hrun;
           open_mutation Hrun Hf Hs;
           apply findById_find in Hf; pose proof (find_id _ _ _ Hf) as Hid;
           inversion Hrun; subst w'; simpl;
           apply (keeps_save _ _ _ m _ _ Hs); [| |done|done].
      * by rewrite (proj1 (keeps_applyEdit c now m)), Hid.
      * apply keeps_applyEdit.
      * simpl. by rewrite Hid.
      * unfold keeps. simpl. by repeat split.
      * by rewrite (proj1 (keeps_addReaction u e now m)), Hid.
      * apply keeps_addReaction.
      * simpl. by rewrite Hid.
      * unfold keeps. simpl. by repeat split.
      * unfold markMessagesAsRead in Hrun.
        destruct (updateManyRead room u ids now (db w)) as [[n d']|] eqn:Hu;
          [|by inversion Hrun].
        apply updateManyRead_inv in Hu as (_ & _ & ->).
        inversion Hrun; subst w'. simpl.
        exists (marked room u ids now x). split; [|apply keeps_marked].
        by apply (list_elem_of_fmap_2 (marked room u ids now) (docs (db w)) x).
    + rewrite (mutation_throw_same _ _ _ _ _ Hrun).
      exists x. split; [done | apply keeps_refl].
Qed.
End CallInvariants.

(** X9. Starting from a collection whose ids are pairwise distinct and
    below its counter and whose documents pass the schema, every sequence
    of service calls ([saveMessage], [getChatHistory] and the five
    mutations, failing or not) ends in such a collection; in particular
    every stored content is non-empty and has at most 1000 characters. *)
Theorem store_invariant (calls : list (Call * Z)) (w : World) :
  storeOk (db w) ->
  storeOk (db (runCalls calls w))
  /\ forall m, m ∈ docs (db (runCalls calls w)) ->
       content m <> "" /\ String.length (content m) <= 1000.
Proof.
  intros Hok.
  assert (Hend : storeOk (db (runCalls calls w))).
  { unfold runCalls. revert w Hok.
    induction calls as [|call calls IH]; intros w Hok; simpl; [done|].
    apply IH. by apply runCall_storeOk. }
  split; [done|]. intros m Hm. destruct Hend as (_ & _ & Hvalid).
  rewrite Forall_forall in Hvalid. specialize (Hvalid m Hm).
  unfold validate in Hvalid. rewrite !andb_true_iff in Hvalid.
  destruct Hvalid as [[[[Hne Hlen] _] _] _]. split.
  - apply negb_true_iff in Hne. by apply String.eqb_neq.
  - by apply Nat.leb_le.
Qed.

Lemma store_invariant_witness :
  storeOk
    (db (runCalls [(SaveCall (ChatSocket.messageData Sample.alice Sample.greeting), 300%Z);
                   (MutateCall (Delete 7 "alice"), 400%Z)] Sample.world0)).
Proof.
  apply (store_invariant _ Sample.world0). unfold storeOk. simpl.
  split; [apply NoDup_singleton|]. split; apply Forall_singleton; reflexivity.
Defined.

(** X10. Under the same condition no sequence of service calls removes a
    document or changes its id, sender, room, chat type or creation time,
    and a document flagged deleted stays flagged: every document of the
    collection before has a later version in the collection after. *)
Theorem documents_persist (calls : list (Call * Z)) (w : World) (x : Message.t) :
  storeOk (db w) -> x ∈ docs (db w) ->
  exists x', x' ∈ docs (db (runCalls calls w)) /\ keeps x x'.
Proof.
  unfold runCalls. revert w x.
  induction calls as [|call calls IH]; intros w x Hok Hx; simpl.
  - exists x. split; [done | apply keeps_refl].
  - destruct (runCall_keeps w call x Hok Hx) as (x1 & Hx1 & Hk1).
    destruct (IH (runCall w call) x1 (runCall_storeOk w call Hok) Hx1)
      as (x' & Hx' & Hk').
    exists x'. split; [done|]. by apply (keeps_trans x x1 x').
Qed.

Lemma documents_persist_witness :
  exists x',
    x' ∈ docs (db (runCalls [(MutateCall (Delete 7 "alice"), 300%Z);
                             (MutateCall (Edit 7 "alice" "back again"), 400%Z)]
                     Sample.world0))
    /\ keeps Sample.hello x' /\ isDeleted x' = true.
Proof.
  destruct (documents_persist
              [(MutateCall (Delete 7 "alice"), 300%Z);
               (MutateCall (Edit 7 "alice" "back again"), 400%Z)]
              Sample.world0 Sample.hello) as (x' & Hx' & Hk).
  - unfold storeOk. simpl.
    split; [apply NoDup_singleton|]. split; apply Forall_singleton; reflexivity.
  - apply list_elem_of_singleton. reflexivity.
  - exists x'. split; [done|]. split; [done|].
    vm_compute in Hx'. apply list_elem_of_singleton in Hx'. by subst x'.
Defined.

(** ** The cache is advisory *)

Section Advisory.
Implicit Types (w : World).

End Advisory.



(** X12. What a mutation or [saveMessage] returns and what it leaves in
    the store depend on the store alone: with the same collection, two
    worlds with different caches, or with and without a client, give the
    same result and the same collection. *)
Theorem store_outcome_ignores_cache (mu : Mutation) (d : MessageData) (now : Z)
    (w1 w2 : World) :
  db w1 = db w2 ->
  fst (runMutation mu now w1) = fst (runMutation mu now w2)
  /\ db (snd (runMutation mu now w1)) = db (snd (runMutation mu now w2))
  /\ fst (saveMessage d now w1) = fst (saveMessage d now w2)
  /\ db (snd (saveMessage d now w1)) = db (snd (saveMessage d now w2)).
Proof.
  destruct w1 as [c cl1], w2 as [c2 cl2]. simpl. intros <-.
  assert (Hmu : fst (runMutation mu now {| db := c; client := cl1 |})
                = fst (runMutation mu now {| db := c; client := cl2 |})
                /\ db (snd (runMutation mu now {| db := c; client := cl1 |}))
                   = db (snd (runMutation mu now {| db := c; client := cl2 |}))).
  { destruct mu as [id u content|id u|id u e|id u|room u ids]; simpl;
      unfold editMessage, deleteMessage, ChatService.addReaction,
        ChatService.removeReaction, markMessagesAsRead; simpl.
    1-4: destruct (findById id c) as [[m|]|]; [|done..];
         try (destruct (negb (String.eqb (sender m) u)); [done|]);
         by destruct (save _ now c) as [[m' d']|].
    by destruct (updateManyRead room u ids now c) as [[n d']|]. }
  destruct Hmu as [H1 H2]. split; [done|]. split; [done|].
  unfold saveMessage. simpl. by destruct (create d now c) as [[m d']|].
Qed.

Lemma store_outcome_ignores_cache_witness :
  db (snd (runMutation (Delete 7 "alice") 300 Sample.worldCached))
  = db (snd (runMutation (Delete 7 "alice") 300 Sample2.noCache)).
Proof.
  apply (store_outcome_ignores_cache (Delete 7 "alice")
           (ChatSocket.messageData Sample.alice Sample.greeting) 300
           Sample.worldCached Sample2.noCache).
  reflexivity.
Defined.

(** ** Pages *)

Section Pages.
Implicit Types (w : World).

Lemma ceilDiv_bounds total limit :
  (1 <= limit)%Z ->
  (total <= ceilDiv total limit * limit < total + limit)%Z.
Proof.
  intros Hl. unfold ceilDiv.
  pose proof (Z.div_mod (- total) limit ltac:(lia)) as Hdm.
  pose proof (Z.mod_pos_bound (- total) limit ltac:(lia)) as Hm.
  nia.
Qed.

Lemma length_eligible_sorted room w :
  length (merge_sort newerFirst (eligible room w)) = length (eligible room w).
Proof. apply Permutation_length, merge_sort_Permutation. Qed.
End Pages.

(** X13. For a page and a page size of at least 1, a history read that
    misses the cache reports the number of messages of the room that are
    not flagged deleted, the least number of pages that holds them all,
    a next page exactly when messages older than this page remain and a
    previous page exactly when the page is not the first; the page holds
    [limit] messages, or what is left of them on the last page, or none
    beyond it. *)
Theorem pagination_counts (room : string) (page limit now : Z) (w w' : World)
    (h : History) :
  (1 <= page)%Z -> (1 <= limit)%Z ->
  getCache (cacheKey room page limit) now (client w) = None ->
  getChatHistory room page limit now w = (Ok h, w') ->
  let total := Z.of_nat (length (eligible room w)) in
  totalMessages (pagination h) = total
  /\ currentPage (pagination h) = page
  /\ (total <= totalPages (pagination h) * limit < total + limit)%Z
  /\ (hasNext (pagination h) = true <-> (page * limit < total)%Z)
  /\ (hasPrev (pagination h) = true <-> (1 < page)%Z)
  /\ Z.of_nat (length (messages h))
     = Z.min limit (Z.max 0 (total - (page - 1) * limit)).
Proof.
  intros Hpage Hlimit Hmiss Hread total.
  destruct (getChatHistory_miss _ _ _ _ _ _ _ Hmiss Hread) as (_ & Hrev & _ & _).
  unfold getChatHistory in Hread. rewrite Hmiss in Hread.
  unfold findHistory, countDocuments in Hread.
  destruct (connected (db w)); [|discriminate].
  injection Hread as <- _. simpl in *. fold (eligible room w). fold total.
  pose proof (ceilDiv_bounds total limit Hlimit) as Hb.
  split; [done|]. split; [done|]. split; [done|]. split; [|split].
  - rewrite bool_decide_eq_true. nia.
  - by rewrite bool_decide_eq_true.
  - rewrite length_reverse, length_take, length_drop, length_eligible_sorted.
    assert (Hskip : (0 <= (page - 1) * limit)%Z) by nia.
    revert Hskip. generalize ((page - 1) * limit)%Z. intros skip Hskip.
    unfold total. lia.
Qed.

Lemma pagination_counts_witness :
  exists h w',
    getChatHistory "qa_j1_u2" 1 20 300 Sample.world0 = (Ok h, w')
    /\ totalMessages (pagination h) = 1%Z
    /\ Z.of_nat (length (messages h)) = 1%Z.
Proof.
  destruct (getChatHistory "qa_j1_u2" 1 20 300 Sample.world0) as [[h|e] w'] eqn:Hread;
    [|apply (f_equal fst) in Hread; vm_compute in Hread; discriminate].
  exists h, w'. split; [done|].
  destruct (pagination_counts "qa_j1_u2" 1 20 300 Sample.world0 w' h)
    as (Htotal & _ & _ & _ & _ & Hlen); [lia | lia | reflexivity | exact Hread |].
  split; [exact Htotal | exact Hlen].
Defined.

(** X14. Two reads of consecutive pages of one room on the same store,
    both missing the cache, with the messages of the room created at
    pairwise different times (so that newest first is one order only),
    hand out consecutive stretches of the messages taken newest first: no
    message is skipped or handed out twice, and every message of the later
    page is at least as old as every message of the earlier one. *)
Theorem consecutive_pages (room : string) (page limit now : Z) (w w1 w2 : World)
    (h1 h2 : History) :
  (1 <= page)%Z -> (1 <= limit)%Z ->
  NoDup (map createdAt (eligible room w)) ->
  getCache (cacheKey room page limit) now (client w) = None ->
  getCache (cacheKey room (page + 1) limit) now (client w) = None ->
  getChatHistory room page limit now w = (Ok h1, w1) ->
  getChatHistory room (page + 1) limit now w = (Ok h2, w2) ->
  (reverse (messages h1) ++ reverse (messages h2))%list
  = take (Z.to_nat (2 * limit))
      (drop (Z.to_nat ((page - 1) * limit))
         (merge_sort newerFirst (eligible room w)))
  /\ forall a b, a ∈ messages h1 -> b ∈ messages h2 -> olderFirst b a.
Proof.
  intros Hpage Hlimit _ Hm1 Hm2 Hr1 Hr2.
  destruct (getChatHistory_miss _ _ _ _ _ _ _ Hm1 Hr1) as (_ & Hp1 & _ & _).
  destruct (getChatHistory_miss _ _ _ _ _ _ _ Hm2 Hr2) as (_ & Hp2 & _ & _).
  set (newest := merge_sort newerFirst (eligible room w)) in *.
  set (k := Z.to_nat ((page - 1) * limit)) in *.
  set (l := Z.to_nat limit) in *.
  assert (Hk : Z.to_nat ((page + 1 - 1) * limit) = k + l) by (unfold k, l; nia).
  rewrite Hk, <- drop_drop in Hp2.
  split.
  - rewrite Hp1, Hp2, take_take_drop. f_equal. unfold l. lia.
  - intros a b Ha Hb. rewrite <- elem_of_reverse, Hp1 in Ha.
    rewrite <- elem_of_reverse, Hp2 in Hb.
    assert (Hsorted : StronglySorted newerFirst (drop k newest)).
    { pose proof (StronglySorted_merge_sort newerFirst (eligible room w)) as Hs.
      fold newest in Hs. rewrite <- (take_drop k newest) in Hs.
      by apply StronglySorted_app_1_r in Hs. }
    rewrite <- (take_drop l (drop k newest)) in Hsorted.
    apply (StronglySorted_app_1_elem_of _ _ _ a b Hsorted Ha).
    rewrite <- (take_drop l (drop l (drop k newest))). apply elem_of_app. by left.
Qed.

Lemma consecutive_pages_witness :
  exists h1 h2 w1 w2,
    getChatHistory "qa_j1_u2" 1 1 300 Sample.world0 = (Ok h1, w1)
    /\ getChatHistory "qa_j1_u2" 2 1 300 Sample.world0 = (Ok h2, w2)
    /\ (reverse (messages h1) ++ reverse (messages h2))%list = [Sample.hello].
Proof.
  destruct (getChatHistory "qa_j1_u2" 1 1 300 Sample.world0) as [[h1|e] w1] eqn:Hr1;
    [|apply (f_equal fst) in Hr1; vm_compute in Hr1; discriminate].
  destruct (getChatHistory "qa_j1_u2" 2 1 300 Sample.world0) as [[h2|e] w2] eqn:Hr2;
    [|apply (f_equal fst) in Hr2; vm_compute in Hr2; discriminate].
  exists h1, h2, w1, w2. split; [done|]. split; [done|].
  destruct (consecutive_pages "qa_j1_u2" 1 1 300 Sample.world0 w1 w2 h1 h2)
    as [Hcat _];
    [lia | lia | apply NoDup_singleton | reflexivity | reflexivity
     | exact Hr1 | exact Hr2 |].
  rewrite Hcat. vm_compute. reflexivity.
Defined.

(** ** Receipts and reactions of a document *)

Section Documents.
Implicit Types (m : Message.t) (u v e : string).

Lemma find_receipt_readByUser u m :
  List.find (fun r => String.eqb (read_user r) u) (readBy m) = None
  <-> readByUser u m = false.
Proof.
  unfold readByUser. induction (readBy m) as [|r rs IH]; simpl; [done|].
  destruct (String.eqb (read_user r) u); simpl; [split; discriminate | exact IH].
Qed.

Lemma markAsRead_read u now m : readByUser u (markAsRead u now m) = true.
Proof.
  unfold markAsRead.
  destruct (List.find _ (readBy m)) as [r|] eqn:Hf.
  - destruct (readByUser u m) eqn:Hr; [done|].
    apply find_receipt_readByUser in Hr. congruence.
  - unfold readByUser. simpl. rewrite existsb_app. simpl.
    rewrite String.eqb_refl. by rewrite orb_true_r.
Qed.

Lemma markAsRead_already u now m : readByUser u m = true -> markAsRead u now m = m.
Proof.
  intros Hr. unfold markAsRead.
  destruct (List.find _ (readBy m)) as [r|] eqn:Hf; [done|].
  apply find_receipt_readByUser in Hf. congruence.
Qed.
End Documents.

(** X15. [markAsRead] is idempotent and the first read wins: once a user
    has read a message a further call changes nothing, whatever the time;
    after a call the user has a receipt; at most one receipt per user is
    kept; and the receipts of the other users are untouched. *)
Theorem markAsRead_first_read_wins (u : string) (t1 t2 : Z) (m : Message.t) :
  markAsRead u t2 (markAsRead u t1 m) = markAsRead u t1 m
  /\ readByUser u (markAsRead u t1 m) = true
  /\ (readByUser u m = true -> markAsRead u t1 m = m)
  /\ (oneReceiptPerUser m -> oneReceiptPerUser (markAsRead u t1 m))
  /\ (forall v, v <> u -> receiptsOf v (markAsRead u t1 m) = receiptsOf v m).
Proof.
  split; [apply markAsRead_already, markAsRead_read|].
  split; [apply markAsRead_read|]. split; [apply markAsRead_already|]. split.
  - intros Hinv. unfold markAsRead.
    destruct (List.find _ (readBy m)) as [r|] eqn:Hf; [done|].
    apply find_receipt_readByUser in Hf.
    unfold oneReceiptPerUser. simpl. rewrite map_app. simpl.
    apply NoDup_app. split; [done|]. split; [|apply NoDup_singleton].
    intros x Hx Hx'. apply list_elem_of_singleton in Hx'. subst x.
    by apply (readByUser_elem u m).
  - intros v Hne. unfold markAsRead, receiptsOf.
    destruct (List.find _ (readBy m)); [done|]. simpl.
    rewrite List.filter_app. simpl.
    destruct (String.eqb_spec u v); [congruence|]. by rewrite app_nil_r.
Qed.

(** X16. A reaction a user adds to a message on which the user had none
    is taken away again by [removeReaction], which gives the reactions back
    as they were; [addReaction] leaves the entries of every other user as
    they are; and a user who changes the emoji keeps the entry, with its
    creation time, at its place: the number of reactions stays the same. *)
Theorem reaction_add_remove (u e : string) (now : Z) (m : Message.t) :
  (reactionsOf u m = [] ->
   reactions (Message.removeReaction u (Message.addReaction u e now m)) = reactions m)
  /\ (forall v, v <> u ->
        reactionsOf v (Message.addReaction u e now m) = reactionsOf v m)
  /\ (forall r, existingReaction u (reactions m) = Some r ->
        existingReaction u (reactions (Message.addReaction u e now m))
        = Some {| reaction_user := reaction_user r; emoji := e;
                  reaction_createdAt := reaction_createdAt r |}
        /\ length (reactions (Message.addReaction u e now m))
           = length (reactions m)).
Proof.
  split; [|split].
  - intros Hnone. unfold reactionsOf in Hnone.
    assert (Hfind : existingReaction u (reactions m) = None).
    { unfold existingReaction. revert Hnone.
      induction (reactions m) as [|r rs IH]; simpl; [done|].
      destruct (String.eqb (reaction_user r) u); [discriminate | exact IH]. }
    unfold Message.addReaction. rewrite Hfind. simpl.
    rewrite List.filter_app. simpl. rewrite String.eqb_refl. simpl.
    rewrite app_nil_r. clear Hfind. revert Hnone.
    induction (reactions m) as [|r rs IH]; simpl; [done|].
    destruct (String.eqb (reaction_user r) u); simpl; [discriminate|].
    intros H. by rewrite (IH H).
  - intros v Hne. unfold reactionsOf, Message.addReaction.
    destruct (existingReaction u (reactions m)); simpl.
    + by apply filter_other_setFirstEmoji.
    + rewrite List.filter_app. simpl.
      destruct (String.eqb_spec u v); [congruence|]. by rewrite app_nil_r.
  - intros r Hr. unfold Message.addReaction. rewrite Hr. simpl.
    unfold existingReaction in *. revert Hr.
    induction (reactions m) as [|x rs IH]; simpl; [discriminate|].
    destruct (String.eqb (reaction_user x) u) eqn:E; simpl.
    + intros Hx. injection Hx as <-. by rewrite E.
    + rewrite E. intros Hx. destruct (IH Hx) as [H1 H2]. by rewrite H1, H2.
Qed.

Lemma reaction_add_remove_witness :
  reactions (Message.removeReaction "bob" (Message.addReaction "bob" "+1" 300 Sample.hello))
  = reactions Sample.hello.
Proof. apply (reaction_add_remove "bob" "+1" 300 Sample.hello). reflexivity. Defined.

(** ** Connections *)

Section Handshakes.
Implicit Types (s a b : string).

Lemma split_space_first a b :
  spaces a = 0 -> split space (a +:+ " " +:+ b) = a :: split space b.
Proof.
  induction a as [|c a IH]; simpl; [done|].
  destruct (Ascii.eqb c space); [discriminate|].
  intros H. by rewrite (IH H).
Qed.

Lemma split_space_plain s : spaces s = 0 -> split space s = [s].
Proof.
  induction s as [|c s IH]; simpl; [done|].
  destruct (Ascii.eqb c space); [discriminate|].
  intros H. by rewrite (IH H).
Qed.

Lemma truthy_Some (o : option string) :
  truthy o = true -> exists s, o = Some s /\ s <> "".
Proof.
  destruct o as [s|]; simpl; [|discriminate]. intros H.
  exists s. split; [done|]. apply negb_true_iff in H. by apply String.eqb_neq.
Qed.
End Handshakes.

(** X17. A connection is set up only for a handshake that carries a
    non-empty token which [jwt.verify] accepts, and then for the user of
    that token; a handshake without a token is refused before the token is
    verified, a token that does not verify is refused as such, and in both
    cases no gateway state results.  A token in the [auth] data goes before
    the [Authorization] header, of which the second word is the token. *)
Theorem connect_requires_token (verify : string -> option string) (id : string)
    (h : Handshake) (g : Gateway) :
  match connect verify id h g with
  | Ok g' =>
      exists token user,
        handshakeToken h = Some token /\ token <> ""
        /\ verify token = Some user
        /\ g' = handleConnection {| socket_id := id; userId := user |} g
  | Throw e =>
      (truthy (handshakeToken h) = false
       /\ e = Err "Authentication token required")
      \/ (exists token, handshakeToken h = Some token /\ verify token = None
                        /\ e = Err "Authentication failed")
  end
  /\ (truthy (auth_token h) = true -> handshakeToken h = auth_token h)
  /\ (forall scheme token,
        truthy (auth_token h) = false ->
        authorization h = Some (scheme +:+ " " +:+ token) ->
        spaces scheme = 0 -> spaces token = 0 ->
        handshakeToken h = Some token).
Proof.
  split; [|split].
  - unfold connect, authenticate.
    destruct (truthy (handshakeToken h)) eqn:Ht; simpl; [|by left].
    apply truthy_Some in Ht as (token & Htok & Hne). rewrite Htok.
    destruct (verify token) as [user|] eqn:Hv.
    + by exists token, user.
    + right. by exists token.
  - intros Ht. unfold handshakeToken. by rewrite Ht.
  - intros scheme token Ht Hh Hs Htok. unfold handshakeToken. rewrite Ht, Hh.
    rewrite split_space_first by done. by rewrite split_space_plain.
Qed.

Lemma connect_requires_token_witness :
  handshakeToken {| auth_token := None; authorization := Some "Bearer abc" |}
  = Some "abc".
Proof.
  destruct (connect_requires_token (fun _ => None) "s1"
              {| auth_token := None; authorization := Some "Bearer abc" |}
              Sample.gateway0) as (_ & _ & H).
  apply (H "Bearer" "abc"); reflexivity.
Defined.

(** ** Sending and leaving *)



(** X19. [leave_room] takes the socket out of the room and only out of
    that room: the other members of the room and every other room stay as
    they are, the store is not touched, and the [user_left] signal goes to
    the members that remain, not to the socket that left; a later emission
    to the room does not reach it. *)
Theorem leave_room_membership (s : Socket) (roomId : string) (now : Z) (st : State) :
  let st' := fst (leave_room s roomId now st) in
  ~ (socket_id s ∈ members (gateway st') roomId)
  /\ (forall other, other <> socket_id s ->
        (other ∈ members (gateway st') roomId
         <-> other ∈ members (gateway st) roomId))
  /\ (forall room, room <> roomId ->
        members (gateway st') room = members (gateway st) room)
  /\ world st' = world st
  /\ snd (leave_room s roomId now st)
     = [emit (ToRoomExcept roomId (socket_id s)) (user_left (userId s) now)]
  /\ recipients (gateway st') (ToRoomExcept roomId (socket_id s))
     = members (gateway st') roomId
  /\ ~ (socket_id s ∈ recipients (gateway st') (ToRoom roomId))
  /\ ~ (socket_id s ∈ getOnlineUsersInRoom roomId (gateway st')).
Proof.
  intros st'. unfold st', leave_room, leave. simpl.
  assert (Hm : members
                 {| connectedUsers := connectedUsers (gateway st);
                    sockets := sockets (gateway st);
                    rooms := <[roomId := members (gateway st) roomId ∖ {[socket_id s]}]>
                               (rooms (gateway st)) |} roomId
               = members (gateway st) roomId ∖ {[socket_id s]}).
  { unfold members at 1. simpl. by rewrite lookup_insert_eq. }
  assert (Hgone : ~ (socket_id s ∈ members (gateway st) roomId ∖ {[socket_id s]})).
  { intros Hin. apply elem_of_difference in Hin as [_ Hin]. apply Hin.
    by apply elem_of_singleton. }
  split; [by rewrite Hm|]. split.
  { intros other Hne. rewrite Hm, elem_of_difference, elem_of_singleton. tauto. }
  split.
  { intros room Hne. unfold members. simpl. by rewrite lookup_insert_ne. }
  split; [done|]. split; [done|]. split.
  { rewrite Hm. apply set_eq. intros x.
    rewrite !elem_of_difference, elem_of_singleton. tauto. }
  split; [by rewrite Hm|].
  unfold getOnlineUsersInRoom. simpl. rewrite lookup_insert_eq.
  by rewrite elem_of_elements.
Qed.

(** ** Notifications *)

(** X20. A notification for a user is emitted to the user's own room
    exactly when the presence map has an entry for the user.  After a
    connection it reaches the socket; after the older of two sockets of the
    user has disconnected, it is dropped although the newer socket is still
    in the user's room. *)
Theorem notification_follows_presence (g : Gateway) (u older newer : string)
    (notification : value) :
  older <> "" -> newer <> "" -> older <> newer ->
  let s1 := {| socket_id := older; userId := u |} in
  let s2 := {| socket_id := newer; userId := u |} in
  let one := handleConnection s1 g in
  let both := handleConnection s2 one in
  let left := disconnect s1 both in
  sendNotificationToUser u notification one
  = [(ToRoom ("user_" +:+ u), notification)]
  /\ older ∈ recipients one (ToRoom ("user_" +:+ u))
  /\ sendNotificationToUser u notification left = []
  /\ newer ∈ recipients left (ToRoom ("user_" +:+ u))
  /\ (forall g' v, connectedUsers g' !! v = None ->
        sendNotificationToUser v notification g' = []).
Proof.
  intros Ho Hn Hne s1 s2 one both left.
  assert (Hroom1 : members one ("user_" +:+ u)
                   = {[ older ]} ∪ members g ("user_" +:+ u)).
  { unfold one, handleConnection, join, members. simpl.
    by rewrite lookup_insert_eq. }
  assert (Hroom2 : newer ∈ members left ("user_" +:+ u)).
  { unfold left, disconnect, members. simpl. rewrite lookup_fmap.
    unfold both, handleConnection, join. simpl. rewrite lookup_insert_eq. simpl.
    apply elem_of_difference. split.
    - apply elem_of_union. left. by apply elem_of_singleton.
    - intros Hin. apply elem_of_singleton in Hin. congruence. }
  split; [|split; [|split; [|split]]].
  - unfold sendNotificationToUser, one, handleConnection, join. simpl.
    rewrite lookup_insert_eq. apply String.eqb_neq in Ho. by rewrite Ho.
  - simpl. rewrite Hroom1. apply elem_of_union. left. by apply elem_of_singleton.
  - unfold sendNotificationToUser, left, disconnect. simpl.
    by rewrite lookup_delete_eq.
  - exact Hroom2.
  - intros g' v Hv. unfold sendNotificationToUser. by rewrite Hv.
Qed.

Lemma notification_follows_presence_witness :
  sendNotificationToUser "alice" (JStr "ping")
    (disconnect Sample.alice
       (handleConnection Sample.alice2
          (handleConnection Sample.alice Sample.gateway0))) = [].
Proof.
  destruct (notification_follows_presence Sample.gateway0 "alice" "s1" "s2"
              (JStr "ping")) as (_ & _ & H & _); [discriminate..|].
  exact H.
Defined.

(** ** Events the relay passes over *)

(** X21. The relay emits nothing, and does not throw, for an event whose
    type is [new_message] or is none of the five it re-emits, also when the
    event has no type at all or no [message] field. *)
Theorem relay_passes_over (fields : list (string * value)) :
  ~ (assoc "type" fields
       ∈ [JStr "reaction_added"; JStr "reaction_removed"; JStr "message_edited";
          JStr "message_deleted"; JStr "messages_read"]) ->
  handleRedisMessage (JObj fields) = Ok [] /\ onPublished (JObj fields) = [].
Proof.
  intros Hnot.
  assert (H : handleRedisMessage (JObj fields) = Ok []).
  { unfold handleRedisMessage.
    destruct (assoc "type" fields) as [| |b|n|t|l|fs]; try done.
    destruct (String.eqb_spec t "new_message"); [done|].
    destruct (String.eqb_spec t "reaction_added") as [->|]; [set_solver|].
    destruct (String.eqb_spec t "reaction_removed") as [->|]; [set_solver|].
    destruct (String.eqb_spec t "message_edited") as [->|]; [set_solver|].
    destruct (String.eqb_spec t "message_deleted") as [->|]; [set_solver|].
    destruct (String.eqb_spec t "messages_read") as [->|]; [set_solver|].
    done. }
  split; [done|]. unfold onPublished. by rewrite H.
Qed.

Lemma relay_passes_over_witness :
  handleRedisMessage
    (JObj [("type", JStr "new_message"); ("message", toJSON Sample.hello)])
  = Ok [].
Proof.
  apply (relay_passes_over [("type", JStr "new_message"); ("message", toJSON Sample.hello)]).
  simpl. intros Hin.
  repeat (apply elem_of_cons in Hin as [Hin|Hin]; [discriminate|]).
  by apply elem_of_nil in Hin.
Defined.

(** ** The HTTP surface *)

Section Http.
Implicit Types (w : World) (m : Message.t).

Lemma validate_applyEdit newContent now m :
  validate m = true -> newContent <> "" -> String.length newContent <= 1000 ->
  validate (touch now (applyEdit newContent now m)) = true.
Proof.
  intros Hv Hne Hlen. unfold validate in *. rewrite !andb_true_iff in *.
  destruct Hv as [[[[_ _] Ht] Hc] Hs].
  assert (Hfields : content (touch now (applyEdit newContent now m)) = newContent
                    /\ messageType (touch now (applyEdit newContent now m)) = messageType m
                    /\ chatType (touch now (applyEdit newContent now m)) = chatType m
                    /\ status (touch now (applyEdit newContent now m)) = status m).
  { unfold applyEdit. by destruct (truthy (originalContent m)). }
  destruct Hfields as (-> & -> & -> & ->).
  split; [split; [split; [split|]|]|]; try done.
  - apply negb_true_iff. by apply String.eqb_neq.
  - by apply Nat.leb_le.
Qed.
End Http.

(** X22. For the same sender, room, content, message type and parent,
    the HTTP [sendMessage] refuses with status 400 exactly the contents the
    [send_message] handler refuses, and otherwise hands [saveMessage] the
    same sender, trimmed content, message type, room, chat type and parent;
    it never passes a journey id, a location or attachments, so the two
    ways store the same document exactly for a request without attachments
    to a room that is neither a planning nor a location room. *)
Theorem http_send_parity (s : Socket) (data : SendMessage) (now : Z) (w : World) :
  send_roomId data <> "" ->
  let b := {| ChatController.body_roomId := send_roomId data;
              ChatController.body_content := send_content data;
              ChatController.body_messageType := send_messageType data;
              ChatController.body_parentMessageId := send_parentMessageId data |} in
  let viaHttp := ChatController.messageData (userId s) b in
  let viaSocket := ChatSocket.messageData s data in
  ((exists message,
      ChatController.sendMessage (userId s) b now w = (ChatController.Refuse 400 message, w))
   <-> (allWhiteSpace (send_content data) = true
        \/ 1000 < String.length (send_content data)))
  /\ (allWhiteSpace (send_content data) = false ->
      String.length (send_content data) <= 1000 ->
      ChatController.sendMessage (userId s) b now w
      = match saveMessage viaHttp now w with
        | (Ok saved, w') => (ChatController.Json 201 saved, w')
        | (Throw e, w') => (ChatController.Next e, w')
        end)
  /\ data_sender viaHttp = data_sender viaSocket
  /\ data_content viaHttp = data_content viaSocket
  /\ data_messageType viaHttp = data_messageType viaSocket
  /\ data_chatRoom viaHttp = data_chatRoom viaSocket
  /\ data_chatType viaHttp = data_chatType viaSocket
  /\ data_parentMessage viaHttp = data_parentMessage viaSocket
  /\ data_journeyId viaHttp = None /\ data_location viaHttp = None
  /\ data_attachments viaHttp = []
  /\ (default [] (send_attachments data) = [] ->
      determineChatType (send_roomId data) ∈ ["qa_chat"; "direct"] ->
      viaHttp = viaSocket).
Proof.
  intros Hroom b viaHttp viaSocket.
  assert (Hr : String.eqb (send_roomId data) "" = false) by by apply String.eqb_neq.
  assert (Htest : String.eqb (send_content data) ""
                  || Nat.eqb (String.length (trim (send_content data))) 0
                  = allWhiteSpace (send_content data)) by apply content_required_test.
  split; [|split].
  - unfold ChatController.sendMessage. simpl. rewrite Hr. simpl.
    destruct (String.eqb (send_content data) "") eqn:He; simpl in *.
    { split; [intros _; left; congruence | intros _; by eexists]. }
    destruct (Nat.eqb (String.length (trim (send_content data))) 0) eqn:Hz.
    { split; [intros _; left; congruence | intros _; by eexists]. }
    destruct (Nat.ltb_spec 1000 (String.length (send_content data))).
    { split; [intros _; by right | intros _; by eexists]. }
    split.
    + intros [message Hrun]. fold b viaHttp in Hrun.
      destruct (saveMessage viaHttp now w) as [[saved|e] w']; discriminate.
    + intros [Hws|Hlong]; [congruence | lia].
  - intros Hws Hlen. unfold ChatController.sendMessage. simpl. rewrite Hr. simpl.
    rewrite Hws in Htest. apply orb_false_iff in Htest as [-> ->].
    by destruct (Nat.ltb_spec 1000 (String.length (send_content data))); [lia|].
  - repeat (split; [done|]). intros Hatt Htype.
    unfold viaHttp, viaSocket, ChatController.messageData, ChatSocket.messageData.
    simpl. rewrite Hatt. unfold ChatController.chatTypeOf.
    fold (determineChatType (send_roomId data)).
    apply elem_of_cons in Htype as [->|Htype]; [done|].
    apply list_elem_of_singleton in Htype as ->. done.
Qed.

Lemma http_send_parity_witness :
  ChatController.messageData "alice"
    {| ChatController.body_roomId := "qa_j1_u2"; ChatController.body_content := " hi there ";
       ChatController.body_messageType := None; ChatController.body_parentMessageId := None |}
  = ChatSocket.messageData Sample.alice Sample.greeting.
Proof.
  apply (http_send_parity Sample.alice Sample.greeting 300 Sample.world0).
  - discriminate.
  - reflexivity.
  - simpl. set_solver.
Defined.

(** A planning room: over HTTP the stored message has no journey id, over
    the socket it has. *)
Example http_send_drops_journey :
  data_journeyId
    (ChatController.messageData "alice"
       {| ChatController.body_roomId := "journey_j1"; ChatController.body_content := "hi";
          ChatController.body_messageType := None; ChatController.body_parentMessageId := None |}) = None
  /\ data_journeyId
       (ChatSocket.messageData Sample.alice
          {| send_roomId := "journey_j1"; send_content := "hi";
             send_messageType := None; send_attachments := None;
             send_parentMessageId := None |}) = Some "j1".
Proof. split; reflexivity. Qed.

(** X23. With the store in reach the HTTP [editMessage] answers 400 to a
    blank or too long content without looking at the store, 404 when no
    message has the id, 403 to a user who is not the sender, each time
    leaving everything as it was, and 200 to the sender of a stored valid
    message, whose content is then the trimmed content of the request. *)
Theorem http_edit_statuses (user : string) (id : N) (content0 : string) (now : Z)
    (w : World) :
  connected (db w) = true ->
  (allWhiteSpace content0 = true \/ 1000 < String.length content0 ->
   exists message,
     ChatController.editMessage user id content0 now w = (ChatController.Refuse 400 message, w))
  /\ (allWhiteSpace content0 = false -> String.length content0 <= 1000 ->
      match List.find (fun m => N.eqb (_id m) id) (docs (db w)) with
      | None =>
          ChatController.editMessage user id content0 now w
          = (ChatController.Refuse 404 "Message not found", w)
      | Some m =>
          if String.eqb (sender m) user
          then validate m = true ->
               exists w' m',
                 ChatController.editMessage user id content0 now w
                 = (ChatController.Json 200 {| ack_message := "Message edited successfully" |}, w')
                 /\ findById id (db w') = Ok (Some m')
                 /\ content m' = trim content0
          else ChatController.editMessage user id content0 now w
               = (ChatController.Refuse 403 "Can only edit your own messages", w)
      end).
Proof.
  intros Hc.
  pose proof (content_required_test content0) as Htest. split.
  - intros Hbad. unfold ChatController.editMessage. rewrite Htest.
    destruct (allWhiteSpace content0) eqn:Hws; [by eexists|].
    destruct Hbad as [Hbad|Hlong]; [discriminate|].
    destruct (Nat.ltb_spec 1000 (String.length content0)); [by eexists | lia].
  - intros Hws Hlen. unfold ChatController.editMessage. rewrite Htest, Hws.
    destruct (Nat.ltb_spec 1000 (String.length content0)); [lia|].
    destruct (List.find _ (docs (db w))) as [m|] eqn:Hf.
    + assert (Hfind : findById id (db w) = Ok (Some m))
        by (unfold findById; by rewrite Hc, Hf).
      destruct (String.eqb_spec (sender m) user) as [Hu|Hu].
      * intros Hv.
        assert (Hv' : validate (touch now (applyEdit (trim content0) now m)) = true).
        { apply validate_applyEdit; [done | |].
          - rewrite trim_empty. congruence.
          - pose proof (length_trim content0). lia. }
        destruct (ChatService.editMessage id user (trim content0) now w)
          as [[ack|e] w'] eqn:Hrun.
        -- destruct (editMessage_ok _ _ _ _ _ _ _ _ Hfind Hrun) as [_ Hstored].
           exists w', (touch now (applyEdit (trim content0) now m)).
           split; [|split; [exact Hstored | apply applyEdit_content]].
           unfold ChatService.editMessage in Hrun. rewrite Hfind in Hrun.
           destruct (negb (String.eqb (sender m) user)); [discriminate|].
           destruct (save _ now (db w)) as [[m1 d1]|]; [|discriminate].
           by injection Hrun as <- _.
        -- exfalso. unfold ChatService.editMessage, save in Hrun.
           rewrite Hfind, Hu, String.eqb_refl, Hv', Hc in Hrun. discriminate.
      * unfold ChatService.editMessage. rewrite Hfind.
        apply String.eqb_neq in Hu. by rewrite Hu.
    + unfold ChatService.editMessage, findById. by rewrite Hc, Hf.
Qed.

Lemma http_edit_statuses_witness :
  ChatController.editMessage "bob" 7 "mine now" 300 Sample.world0
  = (ChatController.Refuse 403 "Can only edit your own messages", Sample.world0)
  /\ exists message,
       ChatController.editMessage "alice" 7 "  " 300 Sample.world0
       = (ChatController.Refuse 400 message, Sample.world0).
Proof.
  destruct (http_edit_statuses "bob" 7 "mine now" 300 Sample.world0 eq_refl)
    as [_ H].
  destruct (http_edit_statuses "alice" 7 "  " 300 Sample.world0 eq_refl)
    as [H' _].
  split.
  - apply H; [reflexivity | simpl; lia].
  - apply H'. left. reflexivity.
Defined.

(** Over the socket the same blank content is stored as it is: the
    [edit_message] handler has no check of its own and the schema asks for
    a non-empty string only. *)
Example socket_edit_stores_blank :
  (content <$> docs (db (world (fst (edit_message Sample.alice 7 "  " 300
                                       Sample.state0))))) = ["  "].
Proof. vm_compute. reflexivity. Qed.

(** ** The cache helpers *)



Section HttpMutations.
Implicit Types (w : World) (m : Message.t).

(** A saved version of a stored document is what its id finds next. *)
Lemma save_found e now w m m' d' :
  findById (_id e) (db w) = Ok (Some m) ->
  save e now (db w) = Ok (m', d') ->
  findById (_id e) d' = Ok (Some m') /\ m' = touch now e.
Proof.
  intros Hf Hs. apply save_inv in Hs as (Hm' & _ & Hc & ->).
  split; [|done]. unfold findById. simpl. rewrite Hc. f_equal.
  apply findById_find in Hf.
  apply (find_replaceDoc (_id e) m' (docs (db w)) m); [by rewrite Hm' | done].
Qed.

Lemma save_ok e now w :
  validate (touch now e) = true -> connected (db w) = true ->
  exists d', save e now (db w) = Ok (touch now e, d').
Proof. intros Hv Hc. unfold save. rewrite Hv, Hc. by eexists. Qed.

Lemma first_reaction_after_add u e now m :
  exists r, existingReaction u (reactions (Message.addReaction u e now m)) = Some r
            /\ emoji r = e.
Proof.
  unfold Message.addReaction.
  destruct (existingReaction u (reactions m)) as [r0|] eqn:Hf; simpl.
  - unfold existingReaction in *. revert Hf.
    induction (reactions m) as [|x rs IH]; simpl; [discriminate|].
    destruct (String.eqb (reaction_user x) u) eqn:E; simpl.
    + intros _. rewrite E. by eexists.
    + rewrite E. exact IH.
  - unfold existingReaction in *. revert Hf.
    induction (reactions m) as [|x rs IH]; simpl.
    + intros _. rewrite String.eqb_refl. by eexists.
    + destruct (String.eqb (reaction_user x) u); [discriminate | exact IH].
Qed.
End HttpMutations.

(** X25. With the store in reach the HTTP [deleteMessage] answers 404
    when no message has the id and 403 to a user who is not the sender,
    leaving everything as it was, and 200 to the sender of a stored valid
    message, which is then flagged deleted and holds the tombstone text. *)
Theorem http_delete_statuses (user : string) (id : N) (now : Z) (w : World) :
  connected (db w) = true ->
  match List.find (fun m => N.eqb (_id m) id) (docs (db w)) with
  | None =>
      ChatController.deleteMessage user id now w
      = (ChatController.Refuse 404 "Message not found", w)
  | Some m =>
      if String.eqb (sender m) user
      then validate m = true ->
           exists w' m',
             ChatController.deleteMessage user id now w
             = (ChatController.Json 200
                  {| ack_message := "Message deleted successfully" |}, w')
             /\ findById id (db w') = Ok (Some m')
             /\ isDeleted m' = true /\ content m' = tombstone
             /\ deletedAt m' = Some now
      else ChatController.deleteMessage user id now w
           = (ChatController.Refuse 403 "Can only delete your own messages", w)
  end.
Proof.
  intros Hc. unfold ChatController.deleteMessage, ChatService.deleteMessage.
  destruct (List.find _ (docs (db w))) as [m|] eqn:Hf.
  - assert (Hfind : findById id (db w) = Ok (Some m))
      by (unfold findById; by rewrite Hc, Hf).
    assert (Hid : _id m = id) by by apply find_id in Hf.
    rewrite Hfind. destruct (String.eqb (sender m) user); simpl; [|done].
    intros Hv.
    set (e := set_content tombstone (set_deleted true (Some now) m)).
    assert (Hv' : validate (touch now e) = true).
    { unfold validate in *. rewrite !andb_true_iff in *.
      destruct Hv as [[[[_ _] Ht] Hct] Hst]. by repeat split. }
    destruct (save_ok e now w Hv' Hc) as [d' Hs]. rewrite Hs.
    assert (Hfe : findById (_id e) (db w) = Ok (Some m)) by by rewrite <- Hid in Hfind.
    destruct (save_found e now w m _ d' Hfe Hs) as [Hstored _].
    eexists _, (touch now e). split; [reflexivity|]. simpl.
    split; [by rewrite <- Hid|]. done.
  - unfold findById. by rewrite Hc, Hf.
Qed.

Lemma http_delete_statuses_witness :
  ChatController.deleteMessage "bob" 7 300 Sample.world0
  = (ChatController.Refuse 403 "Can only delete your own messages", Sample.world0).
Proof. apply (http_delete_statuses "bob" 7 300 Sample.world0 eq_refl). Defined.

(** X26. With the store in reach the HTTP [addReaction] answers 400 to an
    emoji that is blank or longer than 10 characters without looking at the
    store and 404 when no message has the id; for a stored valid message it
    answers 200 to any user, and the entry of that user on the message then
    holds the trimmed emoji. *)
Theorem http_reaction_statuses (user : string) (id : N) (e : string) (now : Z)
    (w : World) :
  connected (db w) = true ->
  (allWhiteSpace e = true \/ 10 < String.length e ->
   exists message,
     ChatController.addReaction user id e now w
     = (ChatController.Refuse 400 message, w))
  /\ (allWhiteSpace e = false -> String.length e <= 10 ->
      match List.find (fun m => N.eqb (_id m) id) (docs (db w)) with
      | None =>
          ChatController.addReaction user id e now w
          = (ChatController.Refuse 404 "Message not found", w)
      | Some m =>
          validate m = true ->
          exists w' m' r,
            ChatController.addReaction user id e now w
            = (ChatController.Json 200
                 {| ack_message := "Reaction added successfully" |}, w')
            /\ findById id (db w') = Ok (Some m')
            /\ existingReaction user (reactions m') = Some r
            /\ emoji r = trim e
      end).
Proof.
  intros Hc. pose proof (content_required_test e) as Htest. split.
  - intros Hbad. unfold ChatController.addReaction. rewrite Htest.
    destruct (allWhiteSpace e) eqn:Hws; [by eexists|].
    destruct Hbad as [Hbad|Hlong]; [discriminate|].
    destruct (Nat.ltb_spec 10 (String.length e)); [by eexists | lia].
  - intros Hws Hlen. unfold ChatController.addReaction. rewrite Htest, Hws.
    destruct (Nat.ltb_spec 10 (String.length e)); [lia|].
    unfold ChatService.addReaction.
    destruct (List.find _ (docs (db w))) as [m|] eqn:Hf.
    + assert (Hfind : findById id (db w) = Ok (Some m))
        by (unfold findById; by rewrite Hc, Hf).
      assert (Hid : _id m = id) by by apply find_id in Hf.
      rewrite Hfind. intros Hv.
      set (a := Message.addReaction user (trim e) now m).
      assert (Hida : _id a = id).
      { unfold a, Message.addReaction.
        by destruct (existingReaction user (reactions m)). }
      assert (Hv' : validate (touch now a) = true).
      { rewrite <- Hv. unfold a, Message.addReaction.
        by destruct (existingReaction user (reactions m)). }
      destruct (save_ok a now w Hv' Hc) as [d' Hs]. rewrite Hs.
      assert (Hfa : findById (_id a) (db w) = Ok (Some m)) by by rewrite Hida.
      destruct (save_found a now w m _ d' Hfa Hs) as [Hstored _].
      destruct (first_reaction_after_add user (trim e) now m) as (r & Hr & He).
      eexists _, (touch now a), r. split; [reflexivity|]. simpl.
      split; [by rewrite <- Hida|]. split; [exact Hr | exact He].
    + unfold findById. by rewrite Hc, Hf.
Qed.

Lemma http_reaction_statuses_witness :
  exists message,
    ChatController.addReaction "bob" 7 "far too long an emoji" 300 Sample.world0
    = (ChatController.Refuse 400 message, Sample.world0).
Proof.
  destruct (http_reaction_statuses "bob" 7 "far too long an emoji" 300
              Sample.world0 eq_refl) as [H _].
  apply H. right. simpl. lia.
Defined.
